(** * Online exam portal (app.py): a shallow embedding and its properties

    The program is one Streamlit script over three SQLite tables (users,
    config, questions) and the per-browser [st.session_state].  Every
    [run_query] opens its own connection and commits, so each query is one
    atomic step on the database; a script run is a sequence of such steps.

    - Python floats are IEEE binary64 numbers: the kernel's primitive floats.
    - Python exceptions are values of [exn]; a run ends in [Returned] or
      [Raised], and keeps the writes made before the exception.
    - Functions of Python's library that the script calls ([float], [int],
      [datetime.fromisoformat], [hashlib.sha256], ...) are variables of the
      section [App]: the definitions and theorems hold for every
      implementation; the module [Sample] has implementations that run the
      model on concrete inputs. *)

From Stdlib Require Import ZArith String Ascii List Sorted Bool Floats Lia.
From stdpp Require Import base option gmap strings pretty.
Import ListNotations.

Set Default Proof Using "Type".
Open Scope string_scope.
Open Scope list_scope.
Open Scope Z_scope.

(* ================================================================= *)
(** ** Python values *)

(** The exceptions the script can meet. *)
Inductive exn : Type :=
| ValueError      (* float(), int(), fromisoformat(), list.index *)
| TypeError       (* naive datetime compared with an aware one *)
| OverflowError   (* timedelta / datetime out of range *)
| IndexError      (* [0] on an empty result *)
| KeyError        (* missing dict key or DataFrame column *)
| ZeroDivisionError (* division by the int 0 *)
| IntegrityError  (* PRIMARY KEY violated *)
| ParserError.    (* pandas cannot read the uploaded file *)

(** [score] in [calculate_and_submit] starts as the int [0] and turns into a
    float at the first [score -= pen_val]. *)
Inductive pynum : Type :=
| PyInt (z : Z)
| PyFloat (f : float).

(** int -> float, rounded to nearest even as Python does (exact below
    2^53; the ints of the script are question counts, far from the 2^1024
    where Python raises OverflowError). *)
Definition float_of_Z (z : Z) : float :=
  SF2Prim (binary_normalize prec emax z 0 false).

Definition SF_of_Z (z : Z) : spec_float :=
  match z with
  | Z0 => S754_zero false
  | Zpos p => S754_finite false p 0
  | Zneg p => S754_finite true p 0
  end.

(** int / int for a divisor other than 0: the exact quotient rounded once. *)
Definition int_truediv (a b : Z) : float :=
  SF2Prim (SFdiv prec emax (SF_of_Z a) (SF_of_Z b)).

Definition to_float (n : pynum) : float :=
  match n with
  | PyInt z => float_of_Z z
  | PyFloat f => f
  end.

(** [n + 1] *)
Definition py_add1 (n : pynum) : pynum :=
  match n with
  | PyInt z => PyInt (z + 1)
  | PyFloat f => PyFloat (f + 1)%float
  end.

(** [n - x] for a float [x] *)
Definition py_sub_float (n : pynum) (x : float) : pynum :=
  PyFloat (to_float n - x)%float.

(** [n / d] for an int [d]; [None] is ZeroDivisionError. *)
Definition py_truediv (n : pynum) (d : Z) : option float :=
  if d =? 0 then None
  else Some match n with
            | PyInt z => int_truediv z d
            | PyFloat f => (f / float_of_Z d)%float
            end.

(** [a == b] on values that are [str] or [None]. *)
Definition py_eq (a b : option string) : bool :=
  match a, b with
  | None, None => true
  | Some x, Some y => String.eqb x y
  | _, _ => false
  end.

(** Truth value of a [str] or [None]: [None] and [''] are false. *)
Definition truthy (a : option string) : bool :=
  match a with
  | None => false
  | Some s => negb (String.eqb s "")
  end.

(* ================================================================= *)
(** ** datetime *)

(** An aware datetime: its wall-clock fields as microseconds since
    0001-01-01T00:00:00, and its UTC offset in microseconds. *)
Record aware : Type := Aware_ { local_us : Z; utcoffset_us : Z }.

Inductive datetime : Type :=
| Aware (a : aware)
| Naive (local : Z).

(** The instant an aware datetime denotes; aware datetimes are ordered by it. *)
Definition instant (a : aware) : Z := local_us a - utcoffset_us a.

(** datetime.max is 9999-12-31T23:59:59.999999, day ordinal 3652059. *)
Definition MAX_US : Z := 3652059 * 86400 * 1000000.
(** timedelta.max is 999999999 days, 23:59:59.999999; timedelta.min is -999999999 days. *)
Definition TD_MAX_US : Z := 1000000000 * 86400 * 1000000 - 1.
Definition TD_MIN_US : Z := - (999999999 * 86400 * 1000000).

Definition wall (d : datetime) : Z :=
  match d with
  | Aware a => local_us a
  | Naive l => l
  end.

Definition shift (d : datetime) (us : Z) : datetime :=
  match d with
  | Aware a => Aware (Aware_ (local_us a + us) (utcoffset_us a))
  | Naive l => Naive (l + us)
  end.

(** [d + datetime.timedelta(minutes=m)]: the wall-clock fields move, the
    tzinfo stays; [None] is OverflowError (the timedelta or the sum is out of
    range). *)
Definition add_minutes (d : datetime) (m : Z) : option datetime :=
  let us := m * 60000000 in
  if (TD_MIN_US <=? us) && (us <=? TD_MAX_US)
     && (0 <=? wall d + us) && (wall d + us <? MAX_US)
  then Some (shift d us) else None.

(** [now < d] and [now > d] for the aware [now]; [None] is TypeError. *)
Definition aware_lt (now : aware) (d : datetime) : option bool :=
  match d with
  | Aware a => Some (instant now <? instant a)
  | Naive _ => None
  end.

Definition aware_gt (now : aware) (d : datetime) : option bool :=
  match d with
  | Aware a => Some (instant a <? instant now)
  | Naive _ => None
  end.

(** [d - now], a timedelta in microseconds; [None] is TypeError. *)
Definition minus_aware (d : datetime) (now : aware) : option Z :=
  match d with
  | Aware a => Some (instant a - instant now)
  | Naive _ => None
  end.

(** [td.total_seconds()] *)
Definition total_seconds (td : Z) : float := int_truediv td 1000000.

(* ================================================================= *)
(** ** Sample implementations of the library functions

    Used to run the model on concrete inputs.  Each parser covers a
    fragment of the texts Python accepts (the ones the admin page writes)
    and is right where it answers [Some]; it answers [None] on every text
    Python rejects, and on texts outside its fragment. *)

Module Sample.

Definition is_space (c : ascii) : bool :=
  let n := Z.of_N (N_of_ascii c) in
  ((9 <=? n) && (n <=? 13)) || ((28 <=? n) && (n <=? 32)).

Fixpoint lstrip (s : string) : string :=
  match s with
  | String c rest => if is_space c then lstrip rest else s
  | EmptyString => EmptyString
  end.

Definition strip (s : string) : string :=
  String.rev (lstrip (String.rev (lstrip s))).

Definition digit (c : ascii) : option Z :=
  let n := Z.of_N (N_of_ascii c) in
  if (48 <=? n) && (n <=? 57) then Some (n - 48) else None.

(** Decimal digits, single underscores allowed between two digits;
    [fresh] says that a digit must come next. *)
Fixpoint digits (acc : Z) (fresh : bool) (s : string) : option Z :=
  match s with
  | EmptyString => if fresh then None else Some acc
  | String c rest =>
      match digit c with
      | Some d => digits (acc * 10 + d) false rest
      | None => if Ascii.eqb c "_" && negb fresh then digits acc true rest else None
      end
  end.

(** [int(s)] on ASCII texts: blanks around, a sign, decimal digits. *)
Definition int_of_str (s : string) : option Z :=
  match strip s with
  | String "-" rest => Z.opp <$> digits 0 true rest
  | String "+" rest => digits 0 true rest
  | rest => digits 0 true rest
  end.

(** The digits of a plain decimal: the number read without its point, and
    how many digits follow the point ([None] before the point is met). *)
Fixpoint decimal (acc : Z) (frac : option Z) (seen : bool) (s : string) : option (Z * Z) :=
  match s with
  | EmptyString => if seen then Some (acc, default 0 frac) else None
  | String c rest =>
      match digit c with
      | Some d => decimal (acc * 10 + d) (Z.succ <$> frac) true rest
      | None =>
          if Ascii.eqb c "." && bool_decide (frac = None)
          then decimal acc (Some 0) seen rest else None
      end
  end.

(** With both the digits and the power of ten exact as floats, the float
    quotient is the decimal rounded once, which is what [float] returns. *)
Definition unsigned_float (s : string) : option float :=
  match decimal 0 None false s with
  | Some (m, k) =>
      if (m <? 2 ^ 53) && (k <=? 22)
      then Some (float_of_Z m / float_of_Z (10 ^ k))%float else None
  | None => None
  end.

(** [float(s)] on plain decimals: blanks around, a sign, digits with at
    most one point; no exponent, no [inf], no [nan]. *)
Definition float_of_str (s : string) : option float :=
  match strip s with
  | String "-" rest => PrimFloat.opp <$> unsigned_float rest
  | String "+" rest => unsigned_float rest
  | rest => unsigned_float rest
  end.

(** [n] digits exactly, as a number. *)
Fixpoint fixed (n : nat) (acc : Z) (s : string) : option (Z * string) :=
  match n with
  | O => Some (acc, s)
  | S n' =>
      match s with
      | String c rest =>
          match digit c with
          | Some d => fixed n' (acc * 10 + d) rest
          | None => None
          end
      | EmptyString => None
      end
  end.

Definition expect (c : ascii) (s : string) : option string :=
  match s with
  | String c' rest => if Ascii.eqb c c' then Some rest else None
  | EmptyString => None
  end.

Definition is_leap (y : Z) : bool :=
  (y mod 4 =? 0) && (negb (y mod 100 =? 0) || (y mod 400 =? 0)).

Definition days_in_month (y m : Z) : Z :=
  if m =? 2 then (if is_leap y then 29 else 28)
  else if (m =? 4) || (m =? 6) || (m =? 9) || (m =? 11) then 30 else 31.

Definition days_before_year (y : Z) : Z :=
  let p := y - 1 in p * 365 + p / 4 - p / 100 + p / 400.

Fixpoint days_before_month (y : Z) (m : nat) : Z :=
  match m with
  | O => 0
  | S m' => days_before_month y m' + days_in_month y (Z.of_nat m)
  end.

(** Microseconds since 0001-01-01T00:00:00 of a valid date and time. *)
Definition wall_of (y mo d h mi sec : Z) : option Z :=
  if (1 <=? y) && (1 <=? mo) && (mo <=? 12) && (1 <=? d) && (d <=? days_in_month y mo)
     && (h <? 24) && (mi <? 60) && (sec <? 60)
  then Some (((days_before_year y + days_before_month y (Z.to_nat (mo - 1)) + (d - 1)) * 86400
              + h * 3600 + mi * 60 + sec) * 1000000)
  else None.

(** The offset part: nothing (a naive datetime), or [+HH:MM] / [-HH:MM]. *)
Definition offset_of (s : string) : option (option Z) :=
  match s with
  | EmptyString => Some None
  | String c rest =>
      sign ← (if Ascii.eqb c "+" then Some 1 else if Ascii.eqb c "-" then Some (-1) else None);
      '(h, rest) ← fixed 2 0 rest;
      rest ← expect ":" rest;
      '(mi, rest) ← fixed 2 0 rest;
      if bool_decide (rest = EmptyString) && (h <? 24) && (mi <? 60)
      then Some (Some (sign * (h * 3600 + mi * 60) * 1000000)) else None
  end.

(** [fromisoformat(s)] on [YYYY-MM-DDTHH:MM:SS], with or without an offset
    [+HH:MM]: the text [isoformat()] gives for a datetime without
    microseconds. *)
Definition fromisoformat (s : string) : option datetime :=
  '(y, s) ← fixed 4 0 s;
  s ← expect "-" s;
  '(mo, s) ← fixed 2 0 s;
  s ← expect "-" s;
  '(d, s) ← fixed 2 0 s;
  s ← expect "T" s;
  '(h, s) ← fixed 2 0 s;
  s ← expect ":" s;
  '(mi, s) ← fixed 2 0 s;
  s ← expect ":" s;
  '(sec, s) ← fixed 2 0 s;
  w ← wall_of y mo d h mi sec;
  off ← offset_of s;
  match off with
  | Some o => Some (Aware (Aware_ w o))
  | None => Some (Naive w)
  end.

(** SHA-256 digests of the passwords used in the examples; other texts are
    not covered and give the empty text. *)
Definition sha256_hexdigest (s : string) : string :=
  if String.eqb s "admin123"
  then "240be518fabd2724ddb6f04eeb1da5967448d7e831c08c8fa822809f74c720a9"
  else if String.eqb s "password"
  then "5e884898da28047151d0e56f8dc6292773603d0d6aabbdd62a11ef721d1542d8"
  else "".

(** [IST.localize(dt)]: Asia/Kolkata, five and a half hours ahead of UTC
    (the zone's offset for every date since 1945). *)
Definition IST_localize (wall : Z) : aware := Aware_ wall 19800000000.

(** [str(n)] for an int. *)
Definition str_of_int (n : Z) : string := pretty n.

(** [n] as two digits, for [0 <= n < 100]. *)
Definition two (n : Z) : string :=
  String.append (if n <? 10 then "0" else "") (pretty n).

Definition days_in_year (y : Z) : Z := if is_leap y then 366 else 365.

(** The year that day [n] (counted from 0 at the first day of year [y])
    falls in, and the day within that year. *)
Fixpoint year_from (fuel : nat) (y n : Z) : Z * Z :=
  match fuel with
  | O => (y, n)
  | S fuel' =>
      if n <? days_in_year y then (y, n)
      else year_from fuel' (y + 1) (n - days_in_year y)
  end.

Fixpoint month_from (fuel : nat) (y m n : Z) : Z * Z :=
  match fuel with
  | O => (m, n)
  | S fuel' =>
      if n <? days_in_month y m then (m, n)
      else month_from fuel' y (m + 1) (n - days_in_month y m)
  end.

(** [dt.isoformat()] for an aware datetime in datetime's range, whole
    seconds and an offset of whole minutes: [YYYY-MM-DDTHH:MM:SS+HH:MM]. *)
Definition isoformat (a : aware) : string :=
  let days := local_us a / 86400000000 in
  let secs := (local_us a mod 86400000000) / 1000000 in
  let '(y, n) := year_from (Z.to_nat 10000) 1 days in
  let '(mo, d) := month_from 12 y 1 n in
  let off := Z.abs (utcoffset_us a) / 60000000 in
  let year := String.append (if y <? 1000 then "0" else "")
                (String.append (if y <? 100 then "0" else "")
                   (String.append (if y <? 10 then "0" else "") (pretty y))) in
  String.concat ""
    [year; "-"; two mo; "-"; two (d + 1); "T";
     two (secs / 3600); ":"; two (secs mod 3600 / 60); ":"; two (secs mod 60);
     (if utcoffset_us a <? 0 then "-" else "+"); two (off / 60); ":"; two (off mod 60)].

(** Six digits after the point, without the zeros at the end but with one
    digit at least. *)
Fixpoint fraction (places : nat) (n : Z) : string :=
  match places with
  | O => ""
  | S places' =>
      String.append (pretty (n / 10 ^ Z.of_nat places'))
        (if n mod 10 ^ Z.of_nat places' =? 0 then ""
         else fraction places' (n mod 10 ^ Z.of_nat places'))
  end.

(** [str(x)] for a float that is zero, infinite, NaN, or a decimal of at
    most six places and fifteen digits that is at least 0.0001 in size:
    Python prints such a decimal in full, in fixed notation.  Other floats
    are not covered and give the empty text. *)
Definition str_of_float (x : float) : string :=
  match Prim2SF x with
  | S754_zero s => if s then "-0.0" else "0.0"
  | S754_infinity s => if s then "-inf" else "inf"
  | S754_nan => "nan"
  | S754_finite s m e =>
      let n := Zpos m * 1000000 in
      let scaled :=
        if 0 <=? e then Some (n * 2 ^ e)
        else if n mod 2 ^ (- e) =? 0 then Some (n / 2 ^ (- e)) else None in
      match scaled with
      | Some k =>
          if (100 <=? k) && (k <? 10 ^ 15)
          then String.concat ""
                 [(if s then "-" else ""); pretty (k / 1000000); ".";
                  fraction 6 (k mod 1000000)]
          else ""
      | None => ""
      end
  end.

End Sample.

(* ================================================================= *)
(** ** The database *)

(** users (username TEXT PRIMARY KEY, password TEXT, role TEXT, score REAL).
    A REAL column gives back floats: the ints -999 and 0 the script inserts
    read as -999.0 and 0.0.  (SQLite keeps a NaN as NULL, read back as
    [None]; the test [my_score != -999] takes both for a submitted
    score.) *)
Record user_row : Type := User {
  username : string;
  password : string;
  role : string;
  score : float
}.

(** questions (id INTEGER PRIMARY KEY AUTOINCREMENT, question, opt1..opt4,
    correct_opt TEXT).  The text columns are nullable: an empty CSV cell is
    read by pandas as NaN, which SQLite stores as NULL and Python reads back
    as [None]. *)
Record question_row : Type := Question {
  q_id : Z;
  q_question : option string;
  q_opt1 : option string;
  q_opt2 : option string;
  q_opt3 : option string;
  q_opt4 : option string;
  q_correct_opt : option string
}.

(** config (key TEXT PRIMARY KEY, value TEXT) is a finite map; [questions] is
    in rowid order, which is what [SELECT *] returns; [q_seq] is the largest
    id ever given (sqlite_sequence), so that AUTOINCREMENT never reuses one. *)
Record database : Type := Database {
  users : list user_row;
  config : gmap string string;
  questions : list question_row;
  q_seq : Z
}.

Definition SENTINEL : float := (-999)%float.

(** [SELECT * FROM users WHERE username=?] *)
Definition find_user (d : database) (u : string) : option user_row :=
  List.find (fun r => String.eqb (username r) u) (users d).

(** [SELECT * FROM users WHERE username=? AND password=?] *)
Definition find_login (d : database) (u p : string) : option user_row :=
  List.find (fun r => String.eqb (username r) u && String.eqb (password r) p) (users d).

(** [SELECT * FROM users WHERE role='admin'] is not empty *)
Definition has_admin (d : database) : bool :=
  existsb (fun r => String.eqb (role r) "admin") (users d).

(** [SELECT score FROM users WHERE username=?] *)
Definition select_score (d : database) (u : string) : option float :=
  score <$> find_user d u.

Definition set_score (x : float) (u : string) (r : user_row) : user_row :=
  if String.eqb (username r) u
  then User (username r) (password r) (role r) x
  else r.

(** [UPDATE users SET score=? WHERE username=?]: every matching row, none
    if the user is unknown; there is no condition on the old score. *)
Definition update_score (d : database) (x : float) (u : string) : database :=
  Database (map (set_score x u) (users d)) (config d) (questions d) (q_seq d).

(** [INSERT INTO users VALUES (?, ?, ?, ?)]; [None] is IntegrityError. *)
Definition insert_user (d : database) (r : user_row) : option database :=
  match find_user d (username r) with
  | Some _ => None
  | None => Some (Database (users d ++ [r]) (config d) (questions d) (q_seq d))
  end.

(** [INSERT OR REPLACE INTO config VALUES (k, v)] *)
Definition replace_config (d : database) (k v : string) : database :=
  Database (users d) (<[k := v]> (config d)) (questions d) (q_seq d).

(** [DELETE FROM questions] *)
Definition delete_questions (d : database) : database :=
  Database (users d) (config d) [] (q_seq d).

(** The six values bound by the INSERT of one uploaded row; a cell is a
    text, or [None] for an empty cell. *)
Record csv_row : Type := Csv {
  c_question : option string;
  c_opt1 : option string;
  c_opt2 : option string;
  c_opt3 : option string;
  c_opt4 : option string;
  c_correct_opt : option string
}.

Definition new_question (i : Z) (c : csv_row) : question_row :=
  Question i (c_question c) (c_opt1 c) (c_opt2 c) (c_opt3 c) (c_opt4 c) (c_correct_opt c).

(** [INSERT INTO questions (question, opt1, ..., correct_opt) VALUES (...)] *)
Definition insert_question (c : csv_row) (d : database) : database :=
  let i := q_seq d + 1 in
  Database (users d) (config d) (questions d ++ [new_question i c]) i.

(* ================================================================= *)
(** ** Session state and the run monad *)

(** [st.session_state]: the keys 'user', 'role' and 'user_answers', each
    present or not; an answer is an option text or [None]. *)
Record session : Type := Session {
  s_user : option string;
  s_role : option string;
  s_user_answers : option (gmap Z (option string))
}.

(** [st.session_state.get('user_answers', {})] *)
Definition answers_of (s : session) : gmap Z (option string) :=
  default ∅ (s_user_answers s).

(** A run threads the database, the session and [commits], the database
    states committed by the write queries so far, newest first: these are
    the states another session can read between two queries of this run. *)
Record world : Type := World { db : database; ss : session; commits : list database }.

Inductive outcome (A : Type) : Type :=
| Returned (a : A) (w : world)
| Raised (e : exn) (w : world).
Arguments Returned {A} a w.
Arguments Raised {A} e w.

Definition M (A : Type) : Type := world -> outcome A.

Definition ret {A} (a : A) : M A := fun w => Returned a w.
Definition raise {A} (e : exn) : M A := fun w => Raised e w.
Definition bind {A B} (c : M A) (k : A -> M B) : M B :=
  fun w => match c w with
           | Returned a w' => k a w'
           | Raised e w' => Raised e w'
           end.

Notation "x <- c ;; k" := (bind c (fun x => k))
  (at level 100, c at next level, right associativity).
Notation "c ;;; k" := (bind c (fun _ => k))
  (at level 100, right associativity).

(** Read the database, write it, read and write the session. *)
Definition query {A} (f : database -> A) : M A := fun w => Returned (f (db w)) w.
Definition exec (f : database -> database) : M unit :=
  fun w => Returned tt (World (f (db w)) (ss w) (f (db w) :: commits w)).
(** A write the database may refuse: [e] is raised and nothing is committed. *)
Definition exec_or (e : exn) (f : database -> option database) : M unit :=
  fun w => match f (db w) with
           | Some d' => Returned tt (World d' (ss w) (d' :: commits w))
           | None => Raised e w
           end.
Definition session_get {A} (f : session -> A) : M A := fun w => Returned (f (ss w)) w.
Definition session_set (f : session -> session) : M unit :=
  fun w => Returned tt (World (db w) (f (ss w)) (commits w)).

(** Unwrap a library result, raising [e] on failure. *)
Definition orraise {A} (e : exn) (o : option A) : M A :=
  match o with
  | Some a => ret a
  | None => raise e
  end.

Definition world_of {A} (o : outcome A) : world :=
  match o with
  | Returned _ w => w
  | Raised _ w => w
  end.

(** [for x in l: body x] *)
Fixpoint for_each {A} (l : list A) (body : A -> M unit) : M unit :=
  match l with
  | [] => ret tt
  | x :: rest => body x ;;; for_each rest body
  end.

(* ================================================================= *)
(** ** Widgets *)

(** What the login and admin pages show: [st.error] and [st.success]. *)
Inductive notice : Type :=
| st_error (msg : string)
| st_success (msg : string).

(** The widgets of the login page in one run. *)
Record login_ui : Type := LoginUi {
  in_user : string;
  in_pwd : string;
  btn_login : bool;
  in_new_u : string;
  in_new_p : string;
  btn_create : bool
}.

(** A row of the DataFrame: column name to cell. *)
Definition df_row : Type := gmap string (option string).

(** The widgets of the admin page in one run.  [exam_wall] is
    [datetime.combine(exam_d, exam_t)]; [up_file] is [None] without a file,
    [Some None] for a file pandas rejects, else the rows read. *)
Record admin_ui : Type := AdminUi {
  exam_wall : Z;
  dur : Z;
  ena_neg : bool;
  pen_amt : float;
  show_res : bool;
  btn_save : bool;
  up_file : option (option (list df_row));
  btn_process : bool
}.

(** The widgets of the exam page in one run: what [st.radio] returns for
    the question with a given id, and the submit button. *)
Record exam_ui : Type := ExamUi {
  radio : Z -> option string;
  btn_submit : bool
}.

(* ================================================================= *)
(** ** Concrete data for the examples *)

Module Fixture.

Definition q1 : question_row :=
  Question 1 (Some "2 + 2 = ?") (Some "A") (Some "B") (Some "C") (Some "D") (Some "A").
Definition q2 : question_row :=
  Question 2 (Some "3 + 3 = ?") (Some "A") (Some "B") (Some "C") (Some "D") (Some "B").
(** A question uploaded with an empty correct_opt cell. *)
Definition q_blank : question_row :=
  Question 1 (Some "5 + 5 = ?") (Some "A") (Some "B") (Some "C") (Some "D") None.

Definition admin : user_row :=
  User "admin" "240be518fabd2724ddb6f04eeb1da5967448d7e831c08c8fa822809f74c720a9" "admin" 0%float.
Definition alice : user_row :=
  User "alice" "5e884898da28047151d0e56f8dc6292773603d0d6aabbdd62a11ef721d1542d8" "student" SENTINEL.

(** The exam of 15 January 2024, 10:00 to 10:30 IST. *)
Definition schedule : gmap string string :=
  <["start_time" := "2024-01-15T10:00:00+05:30"]> (<["duration" := "30"]> ∅).
Definition with_penalty (c : gmap string string) : gmap string string :=
  <["neg_marking" := "1"]> (<["penalty" := "0.25"]> c).

Definition bank (c : gmap string string) (qs : list question_row) : database :=
  Database [admin; alice] c qs (Z.of_nat (length qs)).

Definition student (answers : option (gmap Z (option string))) : session :=
  Session (Some "alice") (Some "student") answers.

Definition start (d : database) (s : session) : world := World d s [].

(** A clock reading on 15 January 2024, IST. *)
Definition clock (h m sec : Z) : aware :=
  Aware_ (63840873600000000 + (h * 3600 + m * 60 + sec) * 1000000) 19800000000.

(** A student who touches nothing: every radio is empty, no button pressed. *)
Definition idle : exam_ui := ExamUi (fun _ => None) false.

(** The Sign Up tab filled in and "Create Account" pressed. *)
Definition create (u p : string) : login_ui := LoginUi "" "" false u p true.

(** A table with the six columns, or without the last one. *)
Definition row (q o1 o2 o3 o4 c : string) : df_row :=
  <["question" := Some q]> (<["opt1" := Some o1]> (<["opt2" := Some o2]>
    (<["opt3" := Some o3]> (<["opt4" := Some o4]> (<["correct_opt" := Some c]> ∅))))).
Definition row_without_key (q o1 o2 o3 o4 : string) : df_row :=
  <["question" := Some q]> (<["opt1" := Some o1]> (<["opt2" := Some o2]>
    (<["opt3" := Some o3]> (<["opt4" := Some o4]> ∅)))).

(** The admin page with a file chosen and "Process CSV" pressed. *)
Definition upload (df : list df_row) : admin_ui :=
  AdminUi 0 30 false 0.25%float true false (Some (Some df)) true.

End Fixture.

(* ================================================================= *)
(** ** calculate_and_submit *)

(** Functions of Python's library are variables of the section: the
    definitions below and the theorems about them hold for every
    implementation of them. *)
Section App.

(** [float(s)]; [None] is ValueError. *)
Variable float_of_str : string -> option float.
(** [int(s)]; [None] is ValueError. *)
Variable int_of_str : string -> option Z.
(** [datetime.datetime.fromisoformat(s)]; [None] is ValueError. *)
Variable fromisoformat : string -> option datetime.
(** [hashlib.sha256(str.encode(s)).hexdigest()]. *)
Variable sha256_hexdigest : string -> string.
(** [IST.localize(dt_naive)], on the wall-clock microseconds of the form's
    date and time. *)
Variable IST_localize : Z -> aware.
(** [dt.isoformat()], [str(n)] for an int, [str(x)] for a float. *)
Variable isoformat : aware -> string.
Variable str_of_int : Z -> string.
Variable str_of_float : float -> string.

(** The body of [for q in questions], lines 63-71. *)
Definition score_step (user_ans : gmap Z (option string)) (is_neg : bool)
    (pen_val : float) (score : pynum) (q : question_row) : pynum :=
  let qid := q_id q in
  let correct := q_correct_opt q in
  let selected := default None (user_ans !! qid) in
  if py_eq selected correct then py_add1 score
  else if bool_decide (selected <> None) && is_neg then py_sub_float score pen_val
  else score.

(** Lines 60-73: the loop and the final percentage; [None] is
    ZeroDivisionError. *)
Definition final_percent (qs : list question_row) (user_ans : gmap Z (option string))
    (is_neg : bool) (pen_val : float) : option pynum :=
  let score := fold_left (score_step user_ans is_neg pen_val) qs (PyInt 0) in
  let total := Z.of_nat (length qs) in
  if 0 <? total
  then q ← py_truediv score total; Some (PyFloat (q * 100)%float)
  else Some (PyInt 0).

(** The scoring rule in the specification's words, to compare the loop
    with: what one question does to the score.  Unanswered: nothing, always;
    answered with the correct option: plus one; answered otherwise: minus
    the penalty under negative marking, else nothing. *)
Inductive award : Type := Plus_one | Nothing | Minus_penalty.

Definition rule_award (is_neg : bool) (selected correct : option string) : award :=
  match selected with
  | None => Nothing
  | Some a =>
      if py_eq (Some a) correct then Plus_one
      else if is_neg then Minus_penalty else Nothing
  end.

Definition apply_award (pen_val : float) (score : pynum) (a : award) : pynum :=
  match a with
  | Plus_one => py_add1 score
  | Nothing => score
  | Minus_penalty => py_sub_float score pen_val
  end.

Definition rule_step (user_ans : gmap Z (option string)) (is_neg : bool)
    (pen_val : float) (score : pynum) (q : question_row) : pynum :=
  apply_award pen_val score
    (rule_award is_neg (default None (user_ans !! q_id q)) (q_correct_opt q)).

(** "(sum of awards / total question count) x 100; if the count is 0 the
    result is 0." *)
Definition rule_percent (qs : list question_row) (user_ans : gmap Z (option string))
    (is_neg : bool) (pen_val : float) : option pynum :=
  let score := fold_left (rule_step user_ans is_neg pen_val) qs (PyInt 0) in
  let total := Z.of_nat (length qs) in
  if total =? 0 then Some (PyInt 0)
  else q ← py_truediv score total; Some (PyFloat (q * 100)%float).

(** Lines 51-55: the scoring rules read from config. *)
Definition read_rules : M (bool * float) :=
  neg_mark <- query (fun d => config d !! "neg_marking") ;;
  penalty <- query (fun d => config d !! "penalty") ;;
  let is_neg := match neg_mark with Some v => String.eqb v "1" | None => false end in
  pen_val <- match penalty with
             | Some v => orraise ValueError (float_of_str v)
             | None => ret 0%float
             end ;;
  ret (is_neg, pen_val).

Definition calculate_and_submit (user : string) : M pynum :=
  rules <- read_rules ;;
  qs <- query questions ;;
  user_ans <- session_get answers_of ;;
  result <- orraise ZeroDivisionError (final_percent qs user_ans (fst rules) (snd rules)) ;;
  exec (fun d => update_score d (to_float result) user) ;;;
  ret result.

(* ================================================================= *)
(** ** init_db and page_login *)

Definition make_hashes (password : string) : string := sha256_hexdigest password.

(** The tables exist from the first run on; what is left of [init_db] is the
    creation of the admin account when no row has the role admin. *)
Definition init_db : M unit :=
  admins <- query has_admin ;;
  if admins then ret tt
  else
    exec_or IntegrityError
      (fun d => insert_user d (User "admin" (sha256_hexdigest "admin123") "admin" 0%float)).

(** The Sign Up tab, lines 97-105. *)
Definition sign_up (ui : login_ui) : M (list notice) :=
  if btn_create ui then
    found <- query (fun d => find_user d (in_new_u ui)) ;;
    match found with
    | Some _ => ret [st_error "User exists"]
    | None =>
        exec_or IntegrityError
          (fun d => insert_user d
                      (User (in_new_u ui) (make_hashes (in_new_p ui)) "student" SENTINEL)) ;;;
        ret [st_success "Account created! Please Login."]
    end
  else ret [].

(** [st.rerun()] ends the run, so after a successful login the Sign Up tab
    is not reached. *)
Definition page_login (ui : login_ui) : M (list notice) :=
  if btn_login ui then
    data <- query (fun d => find_login d (in_user ui) (make_hashes (in_pwd ui))) ;;
    match data with
    | Some r =>
        session_set (fun s => Session (Some (username r)) (Some (role r)) (s_user_answers s)) ;;;
        ret []
    | None =>
        more <- sign_up ui ;;
        ret (st_error "Invalid credentials" :: more)
    end
  else sign_up ui.

(* ================================================================= *)
(** ** page_admin *)

Definition flag (b : bool) : string := if b then "1" else "0".

(** Lines 132-142. *)
Definition save_settings (ui : admin_ui) : M (list notice) :=
  if btn_save ui then
    let dt_aware := IST_localize (exam_wall ui) in
    exec (fun d => replace_config d "start_time" (isoformat dt_aware)) ;;;
    exec (fun d => replace_config d "duration" (str_of_int (dur ui))) ;;;
    exec (fun d => replace_config d "neg_marking" (flag (ena_neg ui))) ;;;
    exec (fun d => replace_config d "penalty" (str_of_float (pen_amt ui))) ;;;
    exec (fun d => replace_config d "show_result" (flag (show_res ui))) ;;;
    ret [st_success "Settings Saved!"]
  else ret [].

(** The tuple of line 151: [row['question']], ..., [row['correct_opt']]. *)
Definition read_row (row : df_row) : option csv_row :=
  q ← row !! "question";
  o1 ← row !! "opt1";
  o2 ← row !! "opt2";
  o3 ← row !! "opt3";
  o4 ← row !! "opt4";
  c ← row !! "correct_opt";
  Some (Csv q o1 o2 o3 o4 c).

(** Lines 150-151: the INSERT of one row. *)
Definition insert_row (row : df_row) : M unit :=
  c <- orraise KeyError (read_row row) ;;
  exec (insert_question c).

(** Lines 146-152. *)
Definition process_csv (ui : admin_ui) : M (list notice) :=
  match up_file ui with
  | Some file =>
      if btn_process ui then
        df <- orraise ParserError file ;;
        exec delete_questions ;;;
        for_each df insert_row ;;;
        ret [st_success "Questions uploaded successfully"]
      else ret []
  | None => ret []
  end.

(** The rows of the table up to the first one that lacks a column: the
    rows the loop of line 149 gets to insert. *)
Fixpoint readable (df : list df_row) : list csv_row :=
  match df with
  | [] => []
  | row :: rest =>
      match read_row row with
      | Some c => c :: readable rest
      | None => []
      end
  end.

(** The questions that rows become when inserted after the id [i]. *)
Fixpoint numbered (i : Z) (rows : list csv_row) : list question_row :=
  match rows with
  | [] => []
  | c :: rest => new_question (i + 1) c :: numbered (i + 1) rest
  end.

(** The database states that inserting the rows one by one goes through. *)
Fixpoint grow (d : database) (rows : list csv_row) : list database :=
  match rows with
  | [] => []
  | c :: rest => insert_question c d :: grow (insert_question c d) rest
  end.

(** The settings form, then the upload; the results table only reads. *)
Definition page_admin (ui : admin_ui) : M (list notice) :=
  saved <- save_settings ui ;;
  uploaded <- process_csv ui ;;
  ret (saved ++ uploaded).

(* ================================================================= *)
(** ** page_exam *)

(** What [page_exam] reaches before it returns.  The five paths carry the
    names the specification gives to the phases. *)
Inductive exam_view : Type :=
| Submitted (shown : option float)
    (* "Exam Submitted.", then the score, or "Results hidden." for [None] *)
| NotScheduled                       (* "Exam not scheduled." *)
| NotStarted                         (* "Exam starts at: ..." *)
| Expired (final : pynum)            (* "Time is up! Auto-submitting..." *)
| InProgress (left_sec : float) (submitted : option pynum).
    (* the exam interface: the seconds left, and the result of
       [calculate_and_submit] when "Submit Final Answers" was pressed *)

Inductive phase : Type :=
| SUBMITTED | NOT_SCHEDULED | NOT_STARTED | EXPIRED | IN_PROGRESS.

Definition phase_of (v : exam_view) : phase :=
  match v with
  | Submitted _ => SUBMITTED
  | NotScheduled => NOT_SCHEDULED
  | NotStarted => NOT_STARTED
  | Expired _ => EXPIRED
  | InProgress _ _ => IN_PROGRESS
  end.

Definition set_answer (qid : Z) (val : option string) (s : session) : session :=
  Session (s_user s) (s_role s) (Some (<[qid := val]> (answers_of s))).

(** Lines 213-218 for one question; [opts.index(prev)] raises ValueError
    when [prev] is not among the options. *)
Definition render_question (ui : exam_ui) (q : question_row) : M unit :=
  let qid := q_id q in
  let opts := [q_opt1 q; q_opt2 q; q_opt3 q; q_opt4 q] in
  prev <- session_get (fun s => default None (answers_of s !! qid)) ;;
  (if truthy prev
   then (if existsb (py_eq prev) opts then ret tt else raise ValueError)
   else ret tt) ;;;
  session_set (set_answer qid (radio ui qid)).

(** Lines 207-219: every question is shown with its radio. *)
Definition render_all (ui : exam_ui) : M unit :=
  qs <- query questions ;;
  session_set (fun s => Session (s_user s) (s_role s) (Some (answers_of s))) ;;;
  for_each qs (render_question ui).

(** Lines 203-226: the exam interface. *)
Definition exam_interface (user : string) (ui : exam_ui) (left_sec : float) : M exam_view :=
  render_all ui ;;;
  if btn_submit ui then
    final <- calculate_and_submit user ;;
    ret (InProgress left_sec (Some final))
  else ret (InProgress left_sec None).

(** Lines 176-226: the part of [page_exam] below the test of the stored
    score, for a run that found the student not submitted. *)
Definition exam_schedule (user : string) (now : aware) (ui : exam_ui) : M exam_view :=
  start_str <- query (fun d => config d !! "start_time") ;;
  dur_str <- query (fun d => config d !! "duration") ;;
  match start_str, dur_str with
  | Some s, Some m =>
      start_dt <- orraise ValueError (fromisoformat s) ;;
      minutes <- orraise ValueError (int_of_str m) ;;
      end_dt <- orraise OverflowError (add_minutes start_dt minutes) ;;
      early <- orraise TypeError (aware_lt now start_dt) ;;
      if early then ret NotStarted
      else
        late <- orraise TypeError (aware_gt now end_dt) ;;
        if late then
          final <- calculate_and_submit user ;;
          ret (Expired final)
        else
          left <- orraise TypeError (minus_aware end_dt now) ;;
          exam_interface user ui (total_seconds left)
  | _, _ => ret NotScheduled
  end.

(** Lines 166-174: what the page does with the score it has read. *)
Definition exam_after_read (user : string) (my_score : float) (now : aware)
    (ui : exam_ui) : M exam_view :=
  if negb (my_score =? SENTINEL)%float then
    show_res <- query (fun d => config d !! "show_result") ;;
    match show_res with
    | Some "1" => ret (Submitted (Some my_score))
    | _ => ret (Submitted None)
    end
  else exam_schedule user now ui.

Definition page_exam (now : aware) (ui : exam_ui) : M exam_view :=
  u <- session_get s_user ;;
  user <- orraise KeyError u ;;
  row <- query (fun d => select_score d user) ;;
  my_score <- orraise IndexError row ;;
  exam_after_read user my_score now ui.

(** The schedule in config: both texts are there, [start_time] reads as
    the aware datetime [start], [duration] as [minutes], and adding the
    minutes to [start] gives the datetime [end_]. *)
Definition scheduled (d : database) (start : aware) (minutes : Z) (end_ : aware) : Prop :=
  exists s m,
    config d !! "start_time" = Some s /\ config d !! "duration" = Some m
    /\ fromisoformat s = Some (Aware start) /\ int_of_str m = Some minutes
    /\ add_minutes (Aware start) minutes = Some (Aware end_).

(** Showing the questions raises nothing. *)
Definition renders (ui : exam_ui) (w : world) : Prop :=
  exists w', render_all ui w = Returned tt w'.



(* ================================================================= *)
(** ** The script *)

(** The widgets of one run: the clock reading, the logout button and the
    widgets of each page. *)
Record run_input : Type := RunInput {
  now_ist : aware;
  btn_logout : bool;
  on_login : login_ui;
  on_admin : admin_ui;
  on_exam : exam_ui
}.

Inductive page : Type :=
| LoginPage (shown : list notice)
| LoggedOut
| AdminPage (shown : list notice)
| ExamPage (v : exam_view).

(** Lines 229-242. *)
Definition main (i : run_input) : M page :=
  init_db ;;;
  u <- session_get s_user ;;
  match u with
  | None => shown <- page_login (on_login i) ;; ret (LoginPage shown)
  | Some _ =>
      if btn_logout i then
        session_set (fun s => Session None (s_role s) (s_user_answers s)) ;;;
        ret LoggedOut
      else
        r <- session_get s_role ;;
        role <- orraise KeyError r ;;
        if String.eqb role "admin"
        then shown <- page_admin (on_admin i) ;; ret (AdminPage shown)
        else v <- page_exam (now_ist i) (on_exam i) ;; ret (ExamPage v)
  end.

(* ================================================================= *)
(** ** Notions used by the further properties *)

(** How many questions the answers get right: the stored answer and the
    correct_opt compare equal. *)
Definition right_answers (qs : list question_row) (user_ans : gmap Z (option string)) : Z :=
  Z.of_nat (length (List.filter
    (fun q => py_eq (default None (user_ans !! q_id q)) (q_correct_opt q)) qs)).

(** A row after a write that may only have changed the score of [user]. *)
Definition same_account (user : string) (r r' : user_row) : Prop :=
  username r' = username r /\ password r' = password r /\ role r' = role r
  /\ (username r <> user -> score r' = score r).

(** Two rows of one account: the same name, password and role. *)
Definition same_keys (r r' : user_row) : Prop :=
  username r' = username r /\ password r' = password r /\ role r' = role r.

(** A registry after some runs: the rows it had, each with its name,
    password and role, then the rows added; and no name twice if none was. *)
Definition registry_grows (rows rows' : list user_row) : Prop :=
  exists kept added,
    rows' = kept ++ added /\ Forall2 same_keys rows kept
    /\ (List.NoDup (map username rows) -> List.NoDup (map username rows')).

(** What the login page, the sign-up and the exam page may do to the
    database: let the registry grow, nothing more. *)
Definition accounts_only (d d' : database) : Prop :=
  registry_grows (users d) (users d')
  /\ config d' = config d /\ questions d' = questions d /\ q_seq d' = q_seq d.

(** An answer the radio of [q] can have given: none, the empty text, or
    one of the four options. *)
Definition offered (q : question_row) (a : option string) : Prop :=
  truthy a = true -> existsb (py_eq a) [q_opt1 q; q_opt2 q; q_opt3 q; q_opt4 q] = true.

(** The answers held for the questions of the bank were all offered. *)
Definition tracked (qs : list question_row) (m : gmap Z (option string)) : Prop :=
  forall q, In q qs -> offered q (default None (m !! q_id q)).

(** The usernames are a key. *)
Definition unique_users (d : database) : Prop := List.NoDup (map username (users d)).

(** The questions come in the order of their ids, all given already
    ([q_seq] is the largest id ever given). *)
Definition ids_in_order (d : database) : Prop :=
  StronglySorted Z.lt (map q_id (questions d))
  /\ Forall (fun q => q_id q <= q_seq d) (questions d).

(** Runs of the whole script, one after the other, each by its own
    session: the database they leave. *)
Definition script_runs (d : database) (runs : list (session * run_input)) : database :=
  fold_left (fun d r => db (world_of (main (snd r) (World d (fst r) [])))) runs d.

(* ================================================================= *)
(** ** Properties of the scoring computation *)

Ltac run :=
  repeat (progress unfold bind, ret, raise, query, exec, exec_or, session_get,
            session_set, orraise in *).

(** The loop follows the rule on every question that has a correct_opt,
    and on every question that is answered. *)
Lemma score_step_rule user_ans is_neg pen_val score q :
  q_correct_opt q <> None \/ default None (user_ans !! q_id q) <> None ->
  score_step user_ans is_neg pen_val score q = rule_step user_ans is_neg pen_val score q.
Proof.
  unfold score_step, rule_step, rule_award.
  destruct (default None (user_ans !! q_id q)) as [a|];
    destruct (q_correct_opt q) as [c|]; simpl; intros H.
  - destruct (String.eqb a c); [reflexivity|]. now destruct is_neg.
  - now destruct is_neg.
  - reflexivity.
  - now destruct H.
Qed.

(** The case the rule does not cover: no answer and no correct_opt compare
    equal ([None == None]), and the question counts as right. *)
Lemma score_step_unanswered_null user_ans is_neg pen_val score q :
  default None (user_ans !! q_id q) = None -> q_correct_opt q = None ->
  score_step user_ans is_neg pen_val score q = py_add1 score
  /\ rule_step user_ans is_neg pen_val score q = score.
Proof.
  intros Hsel Hcor. unfold score_step, rule_step. now rewrite Hsel, Hcor.
Qed.

(** On a bank whose questions all have a correct_opt, the percentage is
    the one the rule gives. *)
Lemma final_percent_rule qs user_ans is_neg pen_val :
  Forall (fun q => q_correct_opt q <> None) qs ->
  final_percent qs user_ans is_neg pen_val = rule_percent qs user_ans is_neg pen_val.
Proof.
  intros Hkeys. unfold final_percent, rule_percent.
  assert (Hfold : forall score,
             fold_left (score_step user_ans is_neg pen_val) qs score
             = fold_left (rule_step user_ans is_neg pen_val) qs score).
  { induction Hkeys as [|q qs Hq _ IH]; intros score; simpl; [reflexivity|].
    rewrite score_step_rule by (now left). apply IH. }
  rewrite Hfold.
  destruct (Z.ltb_spec 0 (Z.of_nat (length qs))) as [Hpos|Hzero];
    destruct (Z.eqb_spec (Z.of_nat (length qs)) 0); try reflexivity; lia.
Qed.

(** The guard [total > 0] keeps the division away from zero: the scoring
    never raises. *)
Lemma final_percent_total qs user_ans is_neg pen_val :
  is_Some (final_percent qs user_ans is_neg pen_val).
Proof.
  unfold final_percent, py_truediv.
  destruct (0 <? Z.of_nat (length qs)) eqn:Hpos; [|eauto].
  apply Z.ltb_lt in Hpos.
  destruct (Z.eqb_spec (Z.of_nat (length qs)) 0); [lia | simpl; eauto].
Qed.

(** [read_rules] only reads. *)
Lemma read_rules_world w o :
  read_rules w = o -> world_of o = w.
Proof.
  intros <-. unfold read_rules. run.
  destruct (config (db w) !! "penalty") as [v|]; [|reflexivity].
  now destruct (float_of_str v).
Qed.

(** What [read_rules] returns depends on the database alone. *)
Lemma read_rules_db w w' rules :
  read_rules w = Returned rules w -> db w' = db w -> read_rules w' = Returned rules w'.
Proof.
  unfold read_rules. run. intros H E. rewrite E.
  destruct (config (db w) !! "penalty") as [v|]; [|congruence].
  destruct (float_of_str v); congruence.
Qed.

(** With rules that can be read, [calculate_and_submit] returns the
    percentage of the answers held in the session and writes it on the
    user's row, whatever score the row held. *)
Lemma calculate_and_submit_returns user w is_neg pen_val :
  read_rules w = Returned (is_neg, pen_val) w ->
  exists final,
    final_percent (questions (db w)) (answers_of (ss w)) is_neg pen_val = Some final
    /\ calculate_and_submit user w =
         Returned final (World (update_score (db w) (to_float final) user) (ss w)
                               (update_score (db w) (to_float final) user :: commits w)).
Proof.
  intros Hrules.
  destruct (final_percent_total (questions (db w)) (answers_of (ss w)) is_neg pen_val)
    as [final Hfinal].
  exists final. split; [exact Hfinal|].
  unfold calculate_and_submit, bind at 1. rewrite Hrules. run. simpl.
  now rewrite Hfinal.
Qed.

Lemma username_set_score x u r : username (set_score x u r) = username r.
Proof. unfold set_score. now destruct (String.eqb (username r) u). Qed.

Lemma find_user_update d x v u :
  find_user (update_score d x v) u = set_score x v <$> find_user d u.
Proof.
  unfold find_user, update_score. simpl.
  induction (users d) as [|r0 rows IH]; simpl; [reflexivity|].
  rewrite username_set_score.
  destruct (String.eqb (username r0) u); [reflexivity | exact IH].
Qed.

Lemma find_user_name d u r : find_user d u = Some r -> username r = u.
Proof.
  unfold find_user. intros H. apply find_some in H as [_ H].
  now apply String.eqb_eq.
Qed.

(** [UPDATE users SET score=?] on a known user is read back by the next
    [SELECT score]. *)
Lemma select_score_update d x u r :
  find_user d u = Some r -> select_score (update_score d x u) u = Some x.
Proof.
  intros H. unfold select_score. rewrite find_user_update, H. simpl.
  unfold set_score. now rewrite (find_user_name _ _ _ H), String.eqb_refl.
Qed.

(** It leaves every other user's score alone. *)
Lemma select_score_update_other d x u v :
  u <> v -> select_score (update_score d x v) u = select_score d u.
Proof.
  intros N. unfold select_score. rewrite find_user_update.
  destruct (find_user d u) as [r|] eqn:H; [|reflexivity]. simpl.
  unfold set_score. apply find_user_name in H.
  destruct (String.eqb_spec (username r) v); [congruence | reflexivity].
Qed.

(** C5: with an empty question bank the scoring gives exactly 0 for every
    answer map and every rule, without dividing; so [calculate_and_submit],
    for any rules it can read, returns 0 and stores 0. *)
Theorem empty_bank_scores_zero user w is_neg pen_val :
  questions (db w) = [] ->
  read_rules w = Returned (is_neg, pen_val) w ->
  (forall user_ans flag pen, final_percent [] user_ans flag pen = Some (PyInt 0))
  /\ calculate_and_submit user w =
       Returned (PyInt 0) (World (update_score (db w) 0%float user) (ss w)
                                 (update_score (db w) 0%float user :: commits w)).
Proof.
  intros Hempty Hrules. split; [reflexivity|].
  destruct (calculate_and_submit_returns user w is_neg pen_val Hrules) as (final & Hfinal & Hrun).
  rewrite Hempty in Hfinal. injection Hfinal as <-. exact Hrun.
Qed.

(* ================================================================= *)
(** ** Further properties of the scoring computation *)

(** The loop reads the answers only at the ids of the bank. *)
Lemma fold_score_ext qs a1 a2 is_neg pen_val :
  (forall q, In q qs -> default None (a1 !! q_id q) = default None (a2 !! q_id q)) ->
  forall score,
    fold_left (score_step a1 is_neg pen_val) qs score
    = fold_left (score_step a2 is_neg pen_val) qs score.
Proof.
  induction qs as [|q qs IH]; intros Hsame score; simpl; [reflexivity|].
  unfold score_step at 2 4. rewrite (Hsame q) by now left.
  apply IH. intros q' Hq'. apply Hsame. now right.
Qed.

Lemma final_percent_ext qs a1 a2 is_neg pen_val :
  (forall q, In q qs -> default None (a1 !! q_id q) = default None (a2 !! q_id q)) ->
  final_percent qs a1 is_neg pen_val = final_percent qs a2 is_neg pen_val.
Proof.
  intros Hsame. unfold final_percent. now rewrite (fold_score_ext qs a1 a2).
Qed.

(** X1: the percentage depends on the answers only through what they hold
    at the ids of the bank's questions, a missing entry and a stored [None]
    counting alike: answers kept under other ids change nothing. *)
Theorem only_answers_to_bank_questions_count qs a1 a2 is_neg pen_val :
  (forall q, In q qs -> default None (a1 !! q_id q) = default None (a2 !! q_id q)) ->
  final_percent qs a1 is_neg pen_val = final_percent qs a2 is_neg pen_val.
Proof. apply final_percent_ext. Qed.

Lemma fold_score_plain qs user_ans pen_val : forall k,
  fold_left (score_step user_ans false pen_val) qs (PyInt k)
  = PyInt (k + right_answers qs user_ans).
Proof.
  unfold right_answers.
  induction qs as [|q qs IH]; intros k; simpl; [f_equal; lia|].
  unfold score_step at 2.
  destruct (py_eq (default None (user_ans !! q_id q)) (q_correct_opt q)); simpl.
  - rewrite IH. f_equal. lia.
  - rewrite andb_false_r. apply IH.
Qed.

(** X2: without negative marking the score stays an int, the number of
    questions answered right, and the percentage is that number over the
    number of questions, divided exactly and rounded once, times 100; the
    penalty has no part in it. *)
Theorem no_negative_marking_counts_right_answers qs user_ans pen_val :
  0 <= right_answers qs user_ans <= Z.of_nat (length qs)
  /\ final_percent qs user_ans false pen_val
     = if Z.of_nat (length qs) =? 0 then Some (PyInt 0)
       else Some (PyFloat (int_truediv (right_answers qs user_ans) (Z.of_nat (length qs))
                             * 100)%float).
Proof.
  split.
  - unfold right_answers. pose proof (List.filter_length_le
      (fun q => py_eq (default None (user_ans !! q_id q)) (q_correct_opt q)) qs). lia.
  - unfold final_percent. rewrite fold_score_plain. simpl. unfold py_truediv.
    destruct (Z.ltb_spec 0 (Z.of_nat (length qs)));
      destruct (Z.eqb_spec (Z.of_nat (length qs)) 0); try reflexivity; lia.
Qed.

Lemma int_truediv_0 n : 0 < n -> int_truediv 0 n = 0%float.
Proof. destruct n; [lia | reflexivity | lia]. Qed.

(** X3: on a bank that is not empty and whose questions all have a
    correct_opt, a student who has answered nothing gets 0.0, with negative
    marking or without, whatever the penalty. *)
Theorem nothing_answered_scores_zero qs user_ans is_neg pen_val :
  qs <> [] -> Forall (fun q => q_correct_opt q <> None) qs ->
  (forall q, In q qs -> default None (user_ans !! q_id q) = None) ->
  final_percent qs user_ans is_neg pen_val = Some (PyFloat 0%float).
Proof.
  intros Hne Hkeys Hnone. unfold final_percent.
  assert (Hfold : fold_left (score_step user_ans is_neg pen_val) qs (PyInt 0) = PyInt 0).
  { clear Hne. generalize (PyInt 0).
    induction Hkeys as [|q qs Hq _ IH]; intros score; simpl; [reflexivity|].
    unfold score_step at 2. rewrite (Hnone q) by now left.
    destruct (q_correct_opt q); [|contradiction]. simpl.
    apply IH. intros q' Hq'. apply Hnone. now right. }
  rewrite Hfold. destruct qs as [|q qs]; [contradiction|].
  assert (Hpos : 0 < Z.of_nat (length (q :: qs))) by (simpl; lia).
  destruct (Z.ltb_spec 0 (Z.of_nat (length (q :: qs)))); [|lia].
  unfold py_truediv. destruct (Z.eqb_spec (Z.of_nat (length (q :: qs))) 0); [lia|].
  rewrite int_truediv_0 by exact Hpos. reflexivity.
Qed.

(** Where [calculate_and_submit] leaves the world: as it was, or with the
    one UPDATE committed. *)
Lemma calculate_and_submit_world user w o :
  calculate_and_submit user w = o ->
  world_of o = w
  \/ exists y, world_of o = World (update_score (db w) y user) (ss w)
                                 (update_score (db w) y user :: commits w).
Proof.
  intros H. unfold calculate_and_submit in H. unfold bind at 1 in H.
  pose proof (read_rules_world w _ eq_refl) as Hw.
  destruct (read_rules w) as [rules w1|e w1]; simpl in Hw; subst w1;
    [|subst o; now left].
  run. destruct (final_percent _ _ _ _) as [final|]; subst o; simpl; eauto.
Qed.

Lemma update_score_accounts d y user :
  Forall2 (same_account user) (users d) (users (update_score d y user)).
Proof.
  unfold update_score. simpl.
  induction (users d) as [|r rows IH]; simpl; constructor; [|exact IH].
  unfold same_account, set_score.
  destruct (String.eqb_spec (username r) user); simpl; auto.
  repeat split. intros N. contradiction.
Qed.

Lemma same_account_refl user rows : Forall2 (same_account user) rows rows.
Proof. induction rows; constructor; [now repeat split | assumption]. Qed.

(** X4: whether it returns or raises, [calculate_and_submit] leaves the
    session, the config, the questions and the id counter as they were, and
    of the registry it changes at most the score of the rows named [user]:
    no row is added or removed, and names, passwords, roles and the scores
    of other users stay. *)
Theorem submit_writes_only_that_score user w :
  let w' := world_of (calculate_and_submit user w) in
  ss w' = ss w /\ config (db w') = config (db w)
  /\ questions (db w') = questions (db w) /\ q_seq (db w') = q_seq (db w)
  /\ Forall2 (same_account user) (users (db w)) (users (db w')).
Proof.
  intros w'. subst w'.
  destruct (calculate_and_submit_world user w _ eq_refl) as [-> | [y ->]]; simpl.
  - repeat split. apply same_account_refl.
  - repeat split. apply update_score_accounts.
Qed.

(* ================================================================= *)
(** ** Properties of the exam page *)

Lemma scheduled_end d start minutes end_ :
  scheduled d start minutes end_ ->
  instant end_ = instant start + minutes * 60000000.
Proof.
  intros (s & m & _ & _ & _ & _ & Hadd). unfold add_minutes in Hadd.
  destruct (_ && _) in Hadd; [|discriminate].
  injection Hadd as <-. unfold instant. simpl. lia.
Qed.

Lemma page_exam_read now ui w user x :
  s_user (ss w) = Some user -> select_score (db w) user = Some x ->
  page_exam now ui w = exam_after_read user x now ui w.
Proof.
  intros Hu Hx. unfold page_exam. run. now rewrite Hu, Hx.
Qed.

(** A stored score other than SENTINEL ends the page at once. *)
Lemma exam_after_read_submitted user x now ui w :
  (x =? SENTINEL)%float = false ->
  exists shown, exam_after_read user x now ui w = Returned (Submitted shown) w.
Proof.
  intros Hx. unfold exam_after_read. rewrite Hx. simpl. run.
  destruct (config (db w) !! "show_result") as [v|]; [|eauto].
  destruct v as [|c v]; [eauto|].
  destruct c as [[] [] [] [] [] [] [] []]; eauto.
  destruct v; eauto.
Qed.

Lemma exam_after_read_unsubmitted user x now ui w :
  (x =? SENTINEL)%float = true ->
  exam_after_read user x now ui w = exam_schedule user now ui w.
Proof. intros Hx. unfold exam_after_read. now rewrite Hx. Qed.

Lemma exam_schedule_missing user now ui w :
  config (db w) !! "start_time" = None \/ config (db w) !! "duration" = None ->
  exam_schedule user now ui w = Returned NotScheduled w.
Proof.
  intros H. unfold exam_schedule. run.
  destruct H as [-> | ->]; [reflexivity|].
  now destruct (config (db w) !! "start_time").
Qed.

Lemma exam_schedule_early user now ui w start minutes end_ :
  scheduled (db w) start minutes end_ -> instant now < instant start ->
  exam_schedule user now ui w = Returned NotStarted w.
Proof.
  intros (s & m & Hs & Hm & Hiso & Hint & Hadd) Hlt. unfold exam_schedule. run.
  rewrite Hs, Hm, Hiso, Hint, Hadd. simpl.
  apply Z.ltb_lt in Hlt. now rewrite Hlt.
Qed.


Lemma exam_schedule_open user now ui w start minutes end_ :
  scheduled (db w) start minutes end_ ->
  instant start <= instant now -> instant now <= instant end_ ->
  exam_schedule user now ui w
  = exam_interface user ui (total_seconds (instant end_ - instant now)) w.
Proof.
  intros (s & m & Hs & Hm & Hiso & Hint & Hadd) Hle Hge.
  unfold exam_schedule. unfold bind at 1 2 3 4 5 6 7 8. unfold query, orraise, ret.
  rewrite Hs, Hm, Hiso, Hint, Hadd. simpl.
  apply Z.ltb_ge in Hle. apply Z.ltb_ge in Hge. now rewrite Hle, Hge.
Qed.

(** Showing a question touches the session only. *)
Lemma render_question_db ui q w :
  db (world_of (render_question ui q w)) = db w
  /\ commits (world_of (render_question ui q w)) = commits w.
Proof.
  unfold render_question. run.
  destruct (truthy _); [destruct (existsb _ _)|]; simpl; auto.
Qed.

Lemma for_each_render_db ui qs w :
  db (world_of (for_each qs (render_question ui) w)) = db w
  /\ commits (world_of (for_each qs (render_question ui) w)) = commits w.
Proof.
  revert w. induction qs as [|q qs IH]; intros w; simpl; [auto|].
  unfold bind. pose proof (render_question_db ui q w) as [Hd Hc].
  destruct (render_question ui q w) as [[] w1|e w1]; simpl in *; [|auto].
  destruct (IH w1) as [Hd' Hc']. split; congruence.
Qed.

Lemma render_all_db ui w :
  db (world_of (render_all ui w)) = db w
  /\ commits (world_of (render_all ui w)) = commits w.
Proof.
  unfold render_all. unfold bind, query, session_set.
  apply (for_each_render_db ui (questions (db w))
           (World (db w) (Session (s_user (ss w)) (s_role (ss w)) (Some (answers_of (ss w))))
                  (commits w))).
Qed.

(** The only write of [calculate_and_submit] is the score of [user]. *)
Lemma calculate_and_submit_db user w o :
  calculate_and_submit user w = o ->
  db (world_of o) = db w \/ exists y, db (world_of o) = update_score (db w) y user.
Proof.
  intros H. unfold calculate_and_submit in H. unfold bind at 1 in H.
  pose proof (read_rules_world w _ eq_refl) as Hw.
  destruct (read_rules w) as [rules w1|e w1]; simpl in Hw; subst w1;
    [|subst o; now left].
  run. destruct (final_percent _ _ _ _) as [final|]; subst o; simpl; eauto.
Qed.

(** An interface that renders, under rules that can be read, returns in
    the phase IN_PROGRESS with the time left it was given. *)
Lemma exam_interface_returns user ui left w is_neg pen_val :
  renders ui w -> read_rules w = Returned (is_neg, pen_val) w ->
  exists sub w', exam_interface user ui left w = Returned (InProgress left sub) w'.
Proof.
  intros [w1 Hrender] Hrules. unfold exam_interface. unfold bind at 1. rewrite Hrender.
  destruct (btn_submit ui); [|unfold ret; eauto].
  pose proof (render_all_db ui w) as [Hd _]. rewrite Hrender in Hd. simpl in Hd.
  pose proof (read_rules_db w w1 _ Hrules Hd) as Hrules1.
  destruct (calculate_and_submit_returns user w1 is_neg pen_val Hrules1) as (final & _ & Hrun).
  unfold bind. rewrite Hrun. unfold ret. eauto.
Qed.

Lemma exam_interface_db user ui left w o :
  exam_interface user ui left w = o ->
  db (world_of o) = db w \/ exists y, db (world_of o) = update_score (db w) y user.
Proof.
  intros H. unfold exam_interface in H. unfold bind at 1 in H.
  pose proof (render_all_db ui w) as [Hd _].
  destruct (render_all ui w) as [[] w1|e w1]; simpl in Hd; [|subst o; now left].
  destruct (btn_submit ui); [|subst o; now left].
  unfold bind in H. pose proof (calculate_and_submit_db user w1 _ eq_refl) as Hc.
  destruct (calculate_and_submit user w1) as [final w2|e w2]; subst o; simpl in *;
    rewrite Hd in Hc; exact Hc.
Qed.

Lemma exam_schedule_db user now ui w o :
  exam_schedule user now ui w = o ->
  db (world_of o) = db w \/ exists y, db (world_of o) = update_score (db w) y user.
Proof.
  intros H. unfold exam_schedule in H. unfold bind at 1 2 in H. unfold query in H.
  destruct (config (db w) !! "start_time") as [s|]; [|subst o; now left].
  destruct (config (db w) !! "duration") as [m|]; [|subst o; now left].
  unfold bind at 1 in H. unfold orraise at 1 in H.
  destruct (fromisoformat s) as [start_dt|]; [|subst o; now left]. unfold ret at 1 in H.
  unfold bind at 1 in H. unfold orraise at 1 in H.
  destruct (int_of_str m) as [minutes|]; [|subst o; now left]. unfold ret at 1 in H.
  unfold bind at 1 in H. unfold orraise at 1 in H.
  destruct (add_minutes start_dt minutes) as [end_dt|]; [|subst o; now left].
  unfold ret at 1 in H. unfold bind at 1 in H. unfold orraise at 1 in H.
  destruct (aware_lt now start_dt) as [[]|]; [subst o; now left| |subst o; now left].
  unfold ret at 1 in H. unfold bind at 1 in H. unfold orraise at 1 in H.
  destruct (aware_gt now end_dt) as [[]|]; [| |subst o; now left]; unfold ret at 1 in H.
  - unfold bind in H. pose proof (calculate_and_submit_db user w _ eq_refl) as Hc.
    destruct (calculate_and_submit user w); subst o; exact Hc.
  - unfold bind at 1 in H. unfold orraise at 1 in H.
    destruct (minus_aware end_dt now); [|subst o; now left]. unfold ret at 1 in H.
    now apply (exam_interface_db user ui (total_seconds z) w).
Qed.

(** A run of the exam page writes nothing, or writes the score of the
    session's user, whose stored score it has read as SENTINEL. *)
Lemma page_exam_db now ui w o :
  page_exam now ui w = o ->
  db (world_of o) = db w
  \/ exists user x y,
       s_user (ss w) = Some user /\ select_score (db w) user = Some x
       /\ (x =? SENTINEL)%float = true
       /\ db (world_of o) = update_score (db w) y user.
Proof.
  intros H.
  destruct (s_user (ss w)) as [user|] eqn:Hu;
    [|left; subst o; unfold page_exam; run; now rewrite Hu].
  destruct (select_score (db w) user) as [x|] eqn:Hx;
    [|left; subst o; unfold page_exam; run; now rewrite Hu, Hx].
  rewrite (page_exam_read now ui w user x Hu Hx) in H.
  destruct (x =? SENTINEL)%float eqn:Hs.
  - rewrite exam_after_read_unsubmitted in H by exact Hs.
    destruct (exam_schedule_db user now ui w o H) as [H' | [y H']]; [now left|].
    right. exists user, x, y. auto.
  - destruct (exam_after_read_submitted user x now ui w Hs) as [shown E].
    rewrite E in H. subst o. now left.
Qed.

Lemma exam_interface_view user ui left w v w' :
  exam_interface user ui left w = Returned v w' -> exists sub, v = InProgress left sub.
Proof.
  unfold exam_interface. unfold bind at 1.
  destruct (render_all ui w) as [[] w1|e w1]; [|discriminate].
  destruct (btn_submit ui).
  - unfold bind, ret. destruct (calculate_and_submit user w1); [|discriminate].
    intros [= <- _]. eauto.
  - unfold ret. intros [= <- _]. eauto.
Qed.

(** Without the submit button the interface writes nothing. *)
Lemma exam_interface_idle user ui left_sec w :
  btn_submit ui = false -> db (world_of (exam_interface user ui left_sec w)) = db w.
Proof.
  intros Hbtn. unfold exam_interface. unfold bind. rewrite Hbtn.
  pose proof (render_all_db ui w) as [Hd _].
  now destruct (render_all ui w) as [[] w1|e w1].
Qed.


(** C4, as the code has it: for a student who has not submitted, a missing
    start_time or duration gives NOT_SCHEDULED and raises nothing; when
    both are there, a start_time that [fromisoformat] rejects or a duration
    that [int] rejects ends the run in ValueError. *)
Theorem missing_schedule_shown_malformed_raises now ui w user x :
  s_user (ss w) = Some user -> select_score (db w) user = Some x ->
  (x =? SENTINEL)%float = true ->
  (config (db w) !! "start_time" = None \/ config (db w) !! "duration" = None ->
     page_exam now ui w = Returned NotScheduled w)
  /\ forall s m,
       config (db w) !! "start_time" = Some s -> config (db w) !! "duration" = Some m ->
       (fromisoformat s = None -> page_exam now ui w = Raised ValueError w)
       /\ (int_of_str m = None -> page_exam now ui w = Raised ValueError w).
Proof.
  intros Hu Hx Hs. rewrite (page_exam_read now ui w user x Hu Hx).
  rewrite exam_after_read_unsubmitted by exact Hs. split.
  - apply exam_schedule_missing.
  - intros s m Hstart Hdur. unfold exam_schedule. run. rewrite Hstart, Hdur. split.
    + now intros ->.
    + intros ->. now destruct (fromisoformat s).
Qed.

(** C7: the start of the window is inclusive.  With a schedule whose
    duration is not negative, the run of a student who has not submitted
    and whose clock reads exactly [start] is the exam interface: it returns
    in no phase but IN_PROGRESS, and does return when the rules can be read
    and the questions render. *)
Theorem start_is_inclusive now ui w user x start minutes end_ :
  s_user (ss w) = Some user -> select_score (db w) user = Some x ->
  (x =? SENTINEL)%float = true ->
  scheduled (db w) start minutes end_ -> 0 <= minutes ->
  instant now = instant start ->
  page_exam now ui w = exam_interface user ui (total_seconds (minutes * 60000000)) w
  /\ (forall v w', page_exam now ui w = Returned v w' -> phase_of v = IN_PROGRESS)
  /\ forall is_neg pen_val,
       read_rules w = Returned (is_neg, pen_val) w -> renders ui w ->
       exists v w', page_exam now ui w = Returned v w' /\ phase_of v = IN_PROGRESS.
Proof.
  intros Hu Hx Hs Hsched Hmin Hnow.
  rewrite (page_exam_read now ui w user x Hu Hx).
  rewrite exam_after_read_unsubmitted by exact Hs.
  pose proof (scheduled_end _ _ _ _ Hsched) as Hend.
  rewrite (exam_schedule_open user now ui w start minutes end_ Hsched) by lia.
  replace (instant end_ - instant now) with (minutes * 60000000) by lia.
  split; [reflexivity|]. split.
  - intros v w' Hrun. apply exam_interface_view in Hrun as [sub ->]. reflexivity.
  - intros is_neg pen_val Hrules Hrender.
    destruct (exam_interface_returns user ui (total_seconds (minutes * 60000000)) w
                is_neg pen_val Hrender Hrules) as (sub & w' & ->).
    eauto.
Qed.

(** C9: the end of the window is inclusive.  With a schedule whose
    duration is not negative, the run of a student who has not submitted
    and whose clock reads exactly [end_] is the exam interface with no time
    left, IN_PROGRESS.  A run that ends in EXPIRED had a clock strictly
    after [end_], and so had a run that wrote to the database without the
    submit button pressed. *)
Theorem end_is_inclusive now ui w user x start minutes end_ :
  s_user (ss w) = Some user -> select_score (db w) user = Some x ->
  (x =? SENTINEL)%float = true ->
  scheduled (db w) start minutes end_ ->
  (0 <= minutes -> instant now = instant end_ ->
     page_exam now ui w = exam_interface user ui 0%float w
     /\ forall is_neg pen_val,
          read_rules w = Returned (is_neg, pen_val) w -> renders ui w ->
          exists sub w', page_exam now ui w = Returned (InProgress 0%float sub) w')
  /\ (forall v w',
        page_exam now ui w = Returned v w' -> phase_of v = EXPIRED ->
        instant end_ < instant now)
  /\ (btn_submit ui = false -> db (world_of (page_exam now ui w)) <> db w ->
      instant end_ < instant now).
Proof.
  intros Hu Hx Hs Hsched. rewrite (page_exam_read now ui w user x Hu Hx).
  rewrite exam_after_read_unsubmitted by exact Hs.
  pose proof (scheduled_end _ _ _ _ Hsched) as Hend. split; [|split].
  - intros Hmin Hnow.
    rewrite (exam_schedule_open user now ui w start minutes end_ Hsched) by lia.
    replace (instant end_ - instant now) with 0 by lia.
    split; [reflexivity|]. intros is_neg pen_val Hrules Hrender.
    now apply exam_interface_returns with is_neg pen_val.
  - intros v w' Hrun Hphase.
    destruct (Z.lt_ge_cases (instant now) (instant start)) as [Hearly|Hle].
    + rewrite (exam_schedule_early user now ui w start minutes end_ Hsched Hearly) in Hrun.
      injection Hrun as <- _. discriminate.
    + destruct (Z.lt_ge_cases (instant end_) (instant now)) as [Hlate|Hge]; [exact Hlate|].
      rewrite (exam_schedule_open user now ui w start minutes end_ Hsched Hle Hge) in Hrun.
      apply exam_interface_view in Hrun as [sub ->]. discriminate.
  - intros Hbtn Hwrite.
    destruct (Z.lt_ge_cases (instant now) (instant start)) as [Hearly|Hle].
    + rewrite (exam_schedule_early user now ui w start minutes end_ Hsched Hearly) in Hwrite.
      now destruct Hwrite.
    + destruct (Z.lt_ge_cases (instant end_) (instant now)) as [Hlate|Hge]; [exact Hlate|].
      rewrite (exam_schedule_open user now ui w start minutes end_ Hsched Hle Hge) in Hwrite.
      now rewrite exam_interface_idle in Hwrite.
Qed.


(* ================================================================= *)
(** ** Further properties of the exam page *)

Lemma render_question_eq ui q w :
  render_question ui q w
  = let prev := default None (answers_of (ss w) !! q_id q) in
    if truthy prev && negb (existsb (py_eq prev) [q_opt1 q; q_opt2 q; q_opt3 q; q_opt4 q])
    then Raised ValueError w
    else Returned tt (World (db w) (set_answer (q_id q) (radio ui (q_id q)) (ss w))
                            (commits w)).
Proof.
  unfold render_question. run. cbv zeta.
  destruct (truthy _); [destruct (existsb _ _)|]; reflexivity.
Qed.

(** What the loop of line 212 leaves in the session: the radio's value at
    the id of every question it has shown, the old entry elsewhere. *)
Lemma for_each_render_answers ui qs : forall w w',
  for_each qs (render_question ui) w = Returned tt w' ->
  forall k,
    answers_of (ss w') !! k
    = if in_dec Z.eq_dec k (map q_id qs) then Some (radio ui k)
      else answers_of (ss w) !! k.
Proof.
  induction qs as [|q qs IH]; intros w w' Hrun k.
  - simpl in *. now injection Hrun as <-.
  - simpl in Hrun. unfold bind in Hrun. rewrite render_question_eq in Hrun.
    cbv zeta in Hrun. destruct (_ && _) in Hrun; [discriminate|].
    rewrite (IH _ _ Hrun k). simpl.
    destruct (in_dec Z.eq_dec k (map q_id qs)) as [Hin|Hout].
    + destruct (Z.eq_dec (q_id q) k); reflexivity.
    + destruct (Z.eq_dec (q_id q) k) as [->|Hne].
      * apply lookup_insert_eq.
      * now apply lookup_insert_ne.
Qed.

Lemma render_all_eq ui w :
  render_all ui w
  = for_each (questions (db w)) (render_question ui)
      (World (db w) (Session (s_user (ss w)) (s_role (ss w)) (Some (answers_of (ss w))))
             (commits w)).
Proof. reflexivity. Qed.

(** Showing the questions changes neither the user nor the role. *)
Lemma for_each_render_session ui qs : forall w,
  s_user (ss (world_of (for_each qs (render_question ui) w))) = s_user (ss w)
  /\ s_role (ss (world_of (for_each qs (render_question ui) w))) = s_role (ss w).
Proof.
  induction qs as [|q qs IH]; intros w; simpl; [auto|].
  unfold bind. rewrite render_question_eq. cbv zeta.
  destruct (_ && _); [auto|].
  apply (IH (World (db w) (set_answer (q_id q) (radio ui (q_id q)) (ss w)) (commits w))).
Qed.

Lemma render_all_session ui w :
  s_user (ss (world_of (render_all ui w))) = s_user (ss w)
  /\ s_role (ss (world_of (render_all ui w))) = s_role (ss w).
Proof.
  rewrite render_all_eq.
  apply (for_each_render_session ui (questions (db w))
           (World (db w) (Session (s_user (ss w)) (s_role (ss w))
                                  (Some (answers_of (ss w)))) (commits w))).
Qed.

(** X5: the answer tracker.  When the questions render, the session holds
    at the id of every question of the bank what its radio returned in this
    run (the last write wins), and keeps every other entry; user and role
    stay. *)
Theorem render_stores_radio_values ui w w' :
  render_all ui w = Returned tt w' ->
  (forall q, In q (questions (db w)) ->
     answers_of (ss w') !! q_id q = Some (radio ui (q_id q)))
  /\ (forall k, ~ In k (map q_id (questions (db w))) ->
        answers_of (ss w') !! k = answers_of (ss w) !! k)
  /\ s_user (ss w') = s_user (ss w) /\ s_role (ss w') = s_role (ss w).
Proof.
  intros Hrun. pose proof (render_all_session ui w) as Hsession.
  rewrite Hrun in Hsession. simpl in Hsession.
  rewrite render_all_eq in Hrun.
  pose proof (for_each_render_answers ui _ _ _ Hrun) as Hans. simpl in Hans.
  split; [|split].
  - intros q Hq. rewrite Hans.
    destruct (in_dec Z.eq_dec (q_id q) (map q_id (questions (db w)))) as [_|Hout];
      [reflexivity|]. destruct Hout. now apply in_map.
  - intros k Hk. rewrite Hans.
    now destruct (in_dec Z.eq_dec k (map q_id (questions (db w)))).
  - exact Hsession.
Qed.

(** With distinct ids, answers that were all offered never stop the loop. *)
Lemma for_each_render_returns ui qs : forall w,
  List.NoDup (map q_id qs) -> tracked qs (answers_of (ss w)) ->
  exists w', for_each qs (render_question ui) w = Returned tt w'.
Proof.
  induction qs as [|q qs IH]; intros w Hids Htracked; simpl; [unfold ret; eauto|].
  unfold bind. rewrite render_question_eq. cbv zeta.
  assert (Hq : offered q (default None (answers_of (ss w) !! q_id q)))
    by (apply Htracked; now left).
  assert (Hgo : truthy (default None (answers_of (ss w) !! q_id q))
                && negb (existsb (py_eq (default None (answers_of (ss w) !! q_id q)))
                           [q_opt1 q; q_opt2 q; q_opt3 q; q_opt4 q]) = false).
  { destruct (truthy (default None (answers_of (ss w) !! q_id q))) eqn:Ht; [|reflexivity].
    rewrite (Hq Ht). reflexivity. }
  rewrite Hgo. apply IH; [now inversion Hids|].
  intros q' Hq'. simpl. unfold answers_of at 1. simpl.
  rewrite lookup_insert_ne.
  - apply Htracked. now right.
  - inversion Hids as [|? ? Hnotin _]. intros E. apply Hnotin. rewrite E.
    now apply in_map.
Qed.

(** X6: the interface tolerates being shown again.  On a bank with
    distinct ids, a session whose answers to the bank's questions were all
    offered by their radios (so any session without answers) renders; and
    when each radio returns one of its options, the empty text or nothing,
    the session it leaves is again of that kind, so the next run renders
    too, whatever was chosen. *)
Theorem offered_answers_render_again ui w :
  List.NoDup (map q_id (questions (db w))) ->
  tracked (questions (db w)) (answers_of (ss w)) ->
  exists w',
    render_all ui w = Returned tt w'
    /\ ((forall q, In q (questions (db w)) -> offered q (radio ui (q_id q))) ->
        db w' = db w /\ tracked (questions (db w')) (answers_of (ss w'))
        /\ forall ui2, renders ui2 w').
Proof.
  intros Hids Htracked.
  destruct (for_each_render_returns ui (questions (db w))
              (World (db w) (Session (s_user (ss w)) (s_role (ss w))
                                     (Some (answers_of (ss w)))) (commits w))
              Hids Htracked) as [w' Hrun].
  exists w'. split; [exact Hrun|]. intros Hradio.
  pose proof (render_all_db ui w) as [Hdb _]. rewrite render_all_eq, Hrun in Hdb.
  simpl in Hdb.
  assert (Htracked' : tracked (questions (db w)) (answers_of (ss w'))).
  { intros q Hq. rewrite (for_each_render_answers ui _ _ _ Hrun).
    destruct (in_dec Z.eq_dec (q_id q) (map q_id (questions (db w)))) as [_|Hout].
    - simpl. now apply Hradio.
    - destruct Hout. now apply in_map. }
  split; [exact Hdb|]. rewrite Hdb. split; [exact Htracked'|].
  intros ui2. unfold renders. rewrite render_all_eq, Hdb.
  apply for_each_render_returns; [exact Hids | exact Htracked'].
Qed.

(** X7: a manual submit scores what the radios returned in this run.  For
    a student in the window who presses "Submit Final Answers", the
    percentage returned and stored is that of the values the radios gave
    for the bank's questions; what the session held before the run has no
    part in it. *)
Theorem manual_submit_scores_the_radios now ui w user x start minutes end_
    is_neg pen_val (chosen : gmap Z (option string)) :
  s_user (ss w) = Some user -> select_score (db w) user = Some x ->
  (x =? SENTINEL)%float = true ->
  scheduled (db w) start minutes end_ ->
  instant start <= instant now -> instant now <= instant end_ ->
  read_rules w = Returned (is_neg, pen_val) w -> renders ui w ->
  btn_submit ui = true ->
  (forall q, In q (questions (db w)) ->
     default None (chosen !! q_id q) = radio ui (q_id q)) ->
  exists final w',
    final_percent (questions (db w)) chosen is_neg pen_val = Some final
    /\ page_exam now ui w
       = Returned (InProgress (total_seconds (instant end_ - instant now)) (Some final)) w'
    /\ select_score (db w') user = Some (to_float final).
Proof.
  intros Hu Hx Hs Hsched Hle Hge Hrules [w1 Hrender] Hbtn Hchosen.
  rewrite (page_exam_read now ui w user x Hu Hx).
  rewrite exam_after_read_unsubmitted by exact Hs.
  rewrite (exam_schedule_open user now ui w start minutes end_ Hsched Hle Hge).
  unfold exam_interface. unfold bind at 1. rewrite Hrender, Hbtn.
  pose proof (render_all_db ui w) as [Hd _]. rewrite Hrender in Hd. simpl in Hd.
  pose proof (read_rules_db w w1 _ Hrules Hd) as Hrules1.
  destruct (calculate_and_submit_returns user w1 is_neg pen_val Hrules1)
    as (final & Hfinal & Hrun).
  exists final. eexists. split; [|split].
  - rewrite <- Hfinal, Hd. apply final_percent_ext. intros q Hq.
    rewrite render_all_eq in Hrender.
    rewrite (for_each_render_answers ui _ _ _ Hrender). simpl.
    destruct (in_dec Z.eq_dec (q_id q) (map q_id (questions (db w)))) as [_|Hout].
    + now apply Hchosen.
    + destruct Hout. now apply in_map.
  - unfold bind. rewrite Hrun. reflexivity.
  - simpl. rewrite Hd. unfold select_score in Hx.
    destruct (find_user (db w) user) as [r|] eqn:Hr; [|discriminate].
    now apply select_score_update with r.
Qed.

(** What a submitted student is shown: the score when show_result is the
    text "1", "Results hidden." otherwise. *)
Lemma exam_after_read_shown user x now ui w :
  (x =? SENTINEL)%float = false ->
  exam_after_read user x now ui w
  = Returned (Submitted (if decide (config (db w) !! "show_result" = Some "1")
                         then Some x else None)) w.
Proof.
  intros Hx. unfold exam_after_read. rewrite Hx. simpl. run.
  destruct (config (db w) !! "show_result") as [v|]; [|reflexivity].
  destruct v as [|c v]; [reflexivity|].
  destruct c as [[] [] [] [] [] [] [] []]; try reflexivity.
  destruct v; reflexivity.
Qed.


Lemma exam_interface_session user ui left_sec w o :
  exam_interface user ui left_sec w = o ->
  s_user (ss (world_of o)) = s_user (ss w) /\ s_role (ss (world_of o)) = s_role (ss w).
Proof.
  intros H. unfold exam_interface in H. unfold bind at 1 in H.
  pose proof (render_all_session ui w) as Hs.
  destruct (render_all ui w) as [[] w1|e w1]; simpl in Hs; [|now subst o].
  destruct (btn_submit ui); [|now subst o].
  unfold bind in H.
  destruct (calculate_and_submit_world user w1 _ eq_refl) as [Hw | [y Hw]];
    destruct (calculate_and_submit user w1); subst o; simpl in *; subst; exact Hs.
Qed.

(** Below the test of the score, a run either leaves the session as it
    was or is the exam interface. *)
Lemma exam_schedule_session user now ui w o :
  exam_schedule user now ui w = o ->
  (s_user (ss (world_of o)) = s_user (ss w) /\ s_role (ss (world_of o)) = s_role (ss w))
  /\ (ss (world_of o) = ss w
      \/ forall v w', o = Returned v w' -> phase_of v = IN_PROGRESS).
Proof.
  intros H. unfold exam_schedule in H. unfold bind at 1 2 in H. unfold query in H.
  destruct (config (db w) !! "start_time") as [s|]; [|subst o; auto].
  destruct (config (db w) !! "duration") as [m|]; [|subst o; auto].
  unfold bind at 1 in H. unfold orraise at 1 in H.
  destruct (fromisoformat s) as [start_dt|]; [|subst o; auto]. unfold ret at 1 in H.
  unfold bind at 1 in H. unfold orraise at 1 in H.
  destruct (int_of_str m) as [minutes|]; [|subst o; auto]. unfold ret at 1 in H.
  unfold bind at 1 in H. unfold orraise at 1 in H.
  destruct (add_minutes start_dt minutes) as [end_dt|]; [|subst o; auto].
  unfold ret at 1 in H. unfold bind at 1 in H. unfold orraise at 1 in H.
  destruct (aware_lt now start_dt) as [[]|]; [subst o; auto| |subst o; auto].
  unfold ret at 1 in H. unfold bind at 1 in H. unfold orraise at 1 in H.
  destruct (aware_gt now end_dt) as [[]|]; [| |subst o; auto]; unfold ret at 1 in H.
  - unfold bind in H.
    destruct (calculate_and_submit_world user w _ eq_refl) as [Hw | [y Hw]];
      destruct (calculate_and_submit user w); subst o; simpl in *; subst; auto.
  - unfold bind at 1 in H. unfold orraise at 1 in H.
    destruct (minus_aware end_dt now) as [left|]; [|subst o; auto]. unfold ret at 1 in H.
    split; [now apply (exam_interface_session user ui (total_seconds left) w)|].
    right. intros v w' E. rewrite E in H.
    apply exam_interface_view in H as [sub ->]. reflexivity.
Qed.

(** X9: what a run of the exam page never does.  Returning or raising, it
    leaves config, questions and the id counter as they were; it keeps the
    session's user and role; of the registry it changes at most the score
    of the session's user (nothing at all when no user is logged in); and a
    run that ends in a phase other than IN_PROGRESS leaves the whole session,
    answers included, as it was. *)
Theorem exam_page_writes_only_a_score now ui w :
  let w' := world_of (page_exam now ui w) in
  config (db w') = config (db w) /\ questions (db w') = questions (db w)
  /\ q_seq (db w') = q_seq (db w)
  /\ s_user (ss w') = s_user (ss w) /\ s_role (ss w') = s_role (ss w)
  /\ (forall user, s_user (ss w) = Some user ->
        Forall2 (same_account user) (users (db w)) (users (db w')))
  /\ (s_user (ss w) = None -> w' = w)
  /\ (forall v w1, page_exam now ui w = Returned v w1 -> phase_of v <> IN_PROGRESS ->
        ss w1 = ss w).
Proof.
  intros w'. subst w'.
  assert (Hdb : config (db (world_of (page_exam now ui w))) = config (db w)
                /\ questions (db (world_of (page_exam now ui w))) = questions (db w)
                /\ q_seq (db (world_of (page_exam now ui w))) = q_seq (db w)
                /\ forall user, s_user (ss w) = Some user ->
                     Forall2 (same_account user) (users (db w))
                       (users (db (world_of (page_exam now ui w))))).
  { destruct (page_exam_db now ui w _ eq_refl)
      as [-> | (user & x & y & Hu & _ & _ & ->)].
    - repeat split. intros user _. apply same_account_refl.
    - repeat split. intros user' Hu'. rewrite Hu in Hu'. injection Hu' as <-.
      apply update_score_accounts. }
  destruct Hdb as (Hc & Hq & Hseq & Hrows).
  assert (Hss : (s_user (ss (world_of (page_exam now ui w))) = s_user (ss w)
                 /\ s_role (ss (world_of (page_exam now ui w))) = s_role (ss w))
                /\ (s_user (ss w) = None -> world_of (page_exam now ui w) = w)
                /\ (forall v w1, page_exam now ui w = Returned v w1 ->
                      phase_of v <> IN_PROGRESS -> ss w1 = ss w)).
  { destruct (s_user (ss w)) as [user|] eqn:Hu.
    - destruct (select_score (db w) user) as [x|] eqn:Hx.
      + rewrite (page_exam_read now ui w user x Hu Hx).
        destruct (x =? SENTINEL)%float eqn:Hs.
        * rewrite exam_after_read_unsubmitted by exact Hs.
          destruct (exam_schedule_session user now ui w _ eq_refl) as [Hkeep Hphase].
          rewrite Hu in Hkeep. split; [exact Hkeep|]. split; [discriminate|].
          intros v w1 E Hv. rewrite E in Hphase. simpl in Hphase.
          destruct Hphase as [Hsame | Hin]; [exact Hsame|].
          destruct Hv. now apply (Hin v w1).
        * rewrite exam_after_read_shown by exact Hs. simpl. rewrite Hu.
          repeat split; try discriminate. now intros v w1 [= _ <-].
      + unfold page_exam. run. rewrite Hu, Hx. simpl. rewrite Hu.
        repeat split; discriminate.
    - unfold page_exam. run. rewrite Hu. simpl. rewrite Hu.
      repeat split; discriminate. }
  destruct Hss as ((Hus & Hro) & Hnone & Hphase).
  repeat split; assumption.
Qed.

(** X10: a schedule that reads but cannot be used stops the page.  For a
    student who has not submitted, when start_time and duration both read,
    a duration that takes the end of the window out of datetime's range
    ends the run in OverflowError, and a start_time without an offset in
    TypeError (an aware clock cannot be compared with it); nothing is
    written. *)
Theorem unusable_schedule_raises now ui w user x s m start_dt minutes :
  s_user (ss w) = Some user -> select_score (db w) user = Some x ->
  (x =? SENTINEL)%float = true ->
  config (db w) !! "start_time" = Some s -> config (db w) !! "duration" = Some m ->
  fromisoformat s = Some start_dt -> int_of_str m = Some minutes ->
  (add_minutes start_dt minutes = None -> page_exam now ui w = Raised OverflowError w)
  /\ (forall wall end_dt,
        start_dt = Naive wall -> add_minutes start_dt minutes = Some end_dt ->
        page_exam now ui w = Raised TypeError w).
Proof.
  intros Hu Hx Hs Hstart Hdur Hiso Hint.
  rewrite (page_exam_read now ui w user x Hu Hx).
  rewrite exam_after_read_unsubmitted by exact Hs.
  unfold exam_schedule. run. rewrite Hstart, Hdur, Hiso, Hint. split.
  - now intros ->.
  - intros wall end_dt -> ->. reflexivity.
Qed.

(* ================================================================= *)
(** ** Properties of the upload *)

Lemma last_default {A} (l : list A) (a b : A) :
  List.last l a = match l with [] => a | _ :: _ => List.last l b end.
Proof.
  destruct l as [|x l]; [reflexivity|]. revert x.
  induction l as [|y l IH]; intros x; [reflexivity|]. simpl in *. apply IH.
Qed.

Lemma insert_row_eq row w :
  insert_row row w =
    match read_row row with
    | Some c => Returned tt (World (insert_question c (db w)) (ss w)
                                   (insert_question c (db w) :: commits w))
    | None => Raised KeyError w
    end.
Proof. unfold insert_row. run. now destruct (read_row row). Qed.

(** The loop commits one state per row it can read and stops at the first
    row that lacks a column. *)
Lemma for_each_insert df w :
  commits (world_of (for_each df insert_row w)) = rev (grow (db w) (readable df)) ++ commits w
  /\ db (world_of (for_each df insert_row w)) = List.last (grow (db w) (readable df)) (db w)
  /\ (length (readable df) = length df ->
      exists w', for_each df insert_row w = Returned tt w').
Proof.
  revert w. induction df as [|row df IH]; intros w; simpl.
  - unfold ret. simpl. eauto.
  - unfold bind. rewrite insert_row_eq.
    destruct (read_row row) as [c|]; simpl.
    + destruct (IH (World (insert_question c (db w)) (ss w)
                      (insert_question c (db w) :: commits w))) as (Hc & Hd & Hr).
      simpl in *. repeat split.
      * rewrite Hc. now rewrite <- app_assoc.
      * rewrite Hd. apply last_default.
      * intros Hlen. apply Hr. lia.
    + repeat split. discriminate.
Qed.

(** The [k]-th state of [grow] holds the old rows and the first [k+1] new ones. *)
Lemma grow_lookup rows : forall d k d',
  grow d rows !! k = Some d' ->
  questions d' = questions d ++ numbered (q_seq d) (take (S k) rows)
  /\ users d' = users d /\ config d' = config d.
Proof.
  induction rows as [|c rows IH]; intros d k d' H; [discriminate|].
  destruct k as [|k]; simpl in H.
  - injection H as <-. simpl. auto.
  - apply IH in H as (Hq & Hu & Hc). simpl in *.
    rewrite Hq, <- app_assoc. auto.
Qed.

Lemma length_grow rows : forall d, length (grow d rows) = length rows.
Proof. induction rows as [|c rows IH]; intros d; simpl; [reflexivity | now rewrite IH]. Qed.

Lemma last_grow_questions rows : forall d,
  questions (List.last (grow d rows) d) = questions d ++ numbered (q_seq d) rows.
Proof.
  induction rows as [|c rows IH]; intros d; simpl; [now rewrite app_nil_r|].
  rewrite <- (last_default _ (insert_question c d) d).
  rewrite IH. simpl. now rewrite <- app_assoc.
Qed.

Lemma process_csv_eq ui w df :
  up_file ui = Some (Some df) -> btn_process ui = true ->
  process_csv ui w =
    match for_each df insert_row
            (World (delete_questions (db w)) (ss w) (delete_questions (db w) :: commits w))
    with
    | Returned _ w' => Returned [st_success "Questions uploaded successfully"] w'
    | Raised e w' => Raised e w'
    end.
Proof. intros Hfile Hbtn. unfold process_csv. now rewrite Hfile, Hbtn. Qed.

(** C8, as the code has it: the upload commits the deletion of the old set
    by itself and then every row by itself.  Of the states it commits, the
    one numbered [k] holds exactly the first [k] rows of the file (none of
    the old ones), so state 0 is an empty bank; the rows are those that
    come before the first row lacking a column, and when no row lacks one
    the run ends with the whole file in the bank. *)
Theorem upload_commits_row_by_row ui w df :
  up_file ui = Some (Some df) -> btn_process ui = true ->
  exists states,
    commits (world_of (process_csv ui w)) = rev states ++ commits w
    /\ length states = S (length (readable df))
    /\ (forall (k : nat) d', states !! k = Some d' ->
          questions d' = numbered (q_seq (db w)) (take k (readable df))
          /\ users d' = users (db w) /\ config d' = config (db w))
    /\ questions (db (world_of (process_csv ui w))) = numbered (q_seq (db w)) (readable df)
    /\ (length (readable df) = length df ->
        exists w', process_csv ui w
                   = Returned [st_success "Questions uploaded successfully"] w').
Proof.
  intros Hfile Hbtn.
  exists (delete_questions (db w) :: grow (delete_questions (db w)) (readable df)).
  rewrite (process_csv_eq ui w df Hfile Hbtn).
  set (w0 := World (delete_questions (db w)) (ss w) (delete_questions (db w) :: commits w)).
  destruct (for_each_insert df w0) as (Hc & Hd & Hr).
  assert (Hworld : forall o : outcome unit,
             world_of match o with
                      | Returned _ w' =>
                          Returned [st_success "Questions uploaded successfully"] w'
                      | Raised e w' => Raised e w'
                      end = world_of o) by (intros [[] ?|? ?]; reflexivity).
  rewrite Hworld. repeat split.
  - rewrite Hc. simpl. now rewrite <- app_assoc.
  - simpl. now rewrite length_grow.
  - destruct k as [|k]; simpl in H.
    + injection H as <-. now rewrite take_0.
    + apply grow_lookup in H as (Hq & _ & _). exact Hq.
  - destruct k as [|k]; simpl in H; [now injection H as <-|].
    now apply grow_lookup in H as (_ & Hu & _).
  - destruct k as [|k]; simpl in H; [now injection H as <-|].
    now apply grow_lookup in H as (_ & _ & Hcfg).
  - rewrite Hd. simpl. apply (last_grow_questions (readable df) (delete_questions (db w))).
  - intros Hlen. destruct (Hr Hlen) as [w' ->]. eauto.
Qed.

(* ================================================================= *)
(** ** Every run of the script keeps a submitted score *)

Lemma select_score_insert d r d' u x :
  insert_user d r = Some d' -> select_score d u = Some x -> select_score d' u = Some x.
Proof.
  unfold insert_user. destruct (find_user d (username r)); [discriminate|].
  intros [= <-]. unfold select_score, find_user. simpl.
  induction (users d) as [|r0 rows IH]; simpl; [discriminate|].
  now destruct (String.eqb (username r0) u).
Qed.

Lemma init_db_score w u x o :
  init_db w = o -> select_score (db w) u = Some x ->
  select_score (db (world_of o)) u = Some x /\ ss (world_of o) = ss w.
Proof.
  intros <- Hx. unfold init_db. run.
  destruct (has_admin (db w)); [auto|].
  destruct (insert_user (db w) _) as [d'|] eqn:Hins; simpl; [|auto].
  split; [|reflexivity]. exact (select_score_insert _ _ _ _ _ Hins Hx).
Qed.

Lemma sign_up_score ui w u x o :
  sign_up ui w = o -> select_score (db w) u = Some x ->
  select_score (db (world_of o)) u = Some x.
Proof.
  intros <- Hx. unfold sign_up. destruct (btn_create ui); [|exact Hx]. run.
  destruct (find_user (db w) (in_new_u ui)); [exact Hx|].
  destruct (insert_user (db w) _) as [d'|] eqn:Hins; simpl; [|exact Hx].
  exact (select_score_insert _ _ _ _ _ Hins Hx).
Qed.

Lemma page_login_score ui w u x o :
  page_login ui w = o -> select_score (db w) u = Some x ->
  select_score (db (world_of o)) u = Some x.
Proof.
  intros <- Hx. unfold page_login.
  destruct (btn_login ui); [|now apply sign_up_score with ui w].
  unfold bind at 1. unfold query at 1.
  destruct (find_login (db w) _ _); [exact Hx|].
  unfold bind. pose proof (sign_up_score ui w u x _ eq_refl Hx) as H.
  now destruct (sign_up ui w).
Qed.

Lemma for_each_insert_users df : forall w,
  users (db (world_of (for_each df insert_row w))) = users (db w).
Proof.
  induction df as [|row df IH]; intros w; simpl; [reflexivity|].
  unfold bind. rewrite insert_row_eq.
  destruct (read_row row) as [c|]; [|reflexivity]. now rewrite IH.
Qed.

(** The admin page writes config and questions, never a user. *)
Lemma page_admin_users ui w :
  users (db (world_of (page_admin ui w))) = users (db w).
Proof.
  assert (Hsave : users (db (world_of (save_settings ui w))) = users (db w)
                  /\ exists shown, save_settings ui w = Returned shown (world_of (save_settings ui w))).
  { unfold save_settings. destruct (btn_save ui); run; simpl; eauto. }
  destruct Hsave as [Hu [shown Hs]].
  assert (Hcsv : forall w1, users (db (world_of (process_csv ui w1))) = users (db w1)).
  { intros w1. unfold process_csv.
    destruct (up_file ui) as [[df|]|] eqn:Hfile; try (destruct (btn_process ui); reflexivity).
    destruct (btn_process ui) eqn:Hbtn; [|reflexivity].
    pose proof (process_csv_eq ui w1 df Hfile Hbtn) as E.
    unfold process_csv in E. rewrite Hfile, Hbtn in E. rewrite E.
    pose proof (for_each_insert_users df
                  (World (delete_questions (db w1)) (ss w1)
                         (delete_questions (db w1) :: commits w1))) as H.
    now destruct (for_each df insert_row _). }
  unfold page_admin. unfold bind at 1. rewrite Hs.
  unfold bind, ret. specialize (Hcsv (world_of (save_settings ui w))).
  destruct (process_csv ui _); simpl in *; congruence.
Qed.

(** Whatever the session and the widgets, a run of the whole script keeps
    a stored score other than SENTINEL: [init_db] and the login page add
    rows, the admin page writes no user, and the exam page stops at the
    test of the score. *)
Lemma main_keeps_submitted_score i w u x :
  select_score (db w) u = Some x -> (x =? SENTINEL)%float = false ->
  select_score (db (world_of (main i w))) u = Some x.
Proof.
  intros Hx Hs. unfold main. unfold bind at 1.
  destruct (init_db_score w u x _ eq_refl Hx) as [Hx1 Hss].
  destruct (init_db w) as [[] w1|e w1]; simpl in Hx1, Hss; [|exact Hx1].
  unfold bind at 1. unfold session_get at 1.
  destruct (s_user (ss w1)) as [user|].
  - destruct (btn_logout i); [exact Hx1|].
    unfold bind at 1. unfold session_get at 1.
    unfold bind at 1. unfold orraise at 1.
    destruct (s_role (ss w1)) as [r|]; [|exact Hx1]. unfold ret at 1.
    destruct (String.eqb r "admin").
    + unfold bind, ret. pose proof (page_admin_users (on_admin i) w1) as Hu.
      unfold select_score, find_user in *.
      destruct (page_admin (on_admin i) w1); simpl in *; now rewrite Hu.
    + unfold bind, ret.
      destruct (page_exam_db (now_ist i) (on_exam i) w1 _ eq_refl)
        as [H | (user' & x' & y & _ & Hx' & Hs' & H)].
      * destruct (page_exam _ _ w1); simpl in *; now rewrite H.
      * assert (Hne : u <> user').
        { intros ->. rewrite Hx1 in Hx'. injection Hx' as <-. congruence. }
        destruct (page_exam _ _ w1); simpl in *; rewrite H;
          now rewrite select_score_update_other.
  - unfold bind, ret. pose proof (page_login_score (on_login i) w1 u x _ eq_refl Hx1) as H.
    now destruct (page_login (on_login i) w1).
Qed.

(* ================================================================= *)
(** ** Properties of the sign-up *)

(** C10: creating an account under a username the registry already holds
    shows the error "User exists" and changes nothing; under a new username
    it appends one row, with the role student and the score SENTINEL, and
    touches nothing else. *)
Theorem sign_up_rejects_known_creates_student ui w :
  btn_login ui = false -> btn_create ui = true ->
  (forall r, find_user (db w) (in_new_u ui) = Some r ->
     page_login ui w = Returned [st_error "User exists"] w)
  /\ (find_user (db w) (in_new_u ui) = None ->
      let row := User (in_new_u ui) (make_hashes (in_new_p ui)) "student" SENTINEL in
      let d' := Database (users (db w) ++ [row]) (config (db w)) (questions (db w)) (q_seq (db w)) in
      page_login ui w =
        Returned [st_success "Account created! Please Login."] (World d' (ss w) (d' :: commits w))
      /\ role row = "student" /\ score row = (-999)%float).
Proof.
  intros Hlogin Hcreate. unfold page_login, sign_up. rewrite Hlogin, Hcreate. run.
  split.
  - intros r Hfound. now rewrite Hfound.
  - intros Hnew. rewrite Hnew. unfold insert_user. simpl. rewrite Hnew. auto.
Qed.

(* ================================================================= *)
(** ** Further properties of the login page and of init_db *)

Lemma find_user_None d u :
  find_user d u = None -> ~ In u (map username (users d)).
Proof.
  unfold find_user. intros H Hin. apply in_map_iff in Hin as (r & Hr & Hin).
  apply (find_none _ _ H) in Hin. rewrite Hr, String.eqb_refl in Hin. discriminate.
Qed.

Lemma find_login_new rows u p x :
  ~ In u (map username rows) ->
  List.find (fun r0 => String.eqb (username r0) u && String.eqb (password r0) p)
    (rows ++ [User u p "student" x])
  = Some (User u p "student" x).
Proof.
  induction rows as [|r0 rows IH]; simpl; intros Hnew.
  - now rewrite !String.eqb_refl.
  - destruct (String.eqb_spec (username r0) u) as [E|_]; simpl.
    + destruct Hnew. now left.
    + apply IH. intros Hin. apply Hnew. now right.
Qed.

(** X11: an account that was just created logs in.  Signing up under a
    name the registry does not hold creates the account, and logging in
    afterwards with that name and password puts the name and the role
    student in the session, keeps the session's answers, shows no error and
    writes nothing. *)
Theorem created_account_logs_in ui w :
  btn_login ui = false -> btn_create ui = true ->
  find_user (db w) (in_new_u ui) = None ->
  exists w1,
    page_login ui w = Returned [st_success "Account created! Please Login."] w1
    /\ forall ui2,
         btn_login ui2 = true -> in_user ui2 = in_new_u ui -> in_pwd ui2 = in_new_p ui ->
         page_login ui2 w1
         = Returned [] (World (db w1)
                          (Session (Some (in_new_u ui)) (Some "student")
                                   (s_user_answers (ss w1)))
                          (commits w1)).
Proof.
  intros Hlogin Hcreate Hnew. unfold page_login at 1, sign_up. rewrite Hlogin, Hcreate.
  run. rewrite Hnew. unfold insert_user. simpl. rewrite Hnew.
  eexists. split; [reflexivity|].
  intros ui2 Hbtn Hname Hpwd. unfold page_login. rewrite Hbtn, Hname, Hpwd. run.
  unfold find_login. simpl.
  rewrite find_login_new by now apply find_user_None.
  reflexivity.
Qed.

(** X12: the login compares the name and the digest of the password.
    When a row has both, the first such row gives the session its name and
    role, the answers stay and nothing is written; when no row has both,
    the page shows "Invalid credentials" and nothing changes. *)
Theorem login_checks_name_and_digest ui w :
  btn_login ui = true -> btn_create ui = false ->
  ((exists r, In r (users (db w)) /\ username r = in_user ui
              /\ password r = make_hashes (in_pwd ui)) ->
   exists r, In r (users (db w)) /\ username r = in_user ui
             /\ password r = make_hashes (in_pwd ui)
             /\ page_login ui w
                = Returned [] (World (db w)
                                 (Session (Some (username r)) (Some (role r))
                                          (s_user_answers (ss w)))
                                 (commits w)))
  /\ ((forall r, In r (users (db w)) ->
         ~ (username r = in_user ui /\ password r = make_hashes (in_pwd ui))) ->
      page_login ui w = Returned [st_error "Invalid credentials"] w).
Proof.
  intros Hlogin Hcreate. unfold page_login, sign_up. rewrite Hlogin, Hcreate. run.
  unfold find_login. split.
  - intros (r & Hin & Hname & Hpwd).
    destruct (List.find _ (users (db w))) as [r1|] eqn:Hfind.
    + apply find_some in Hfind as [Hin1 Hmatch].
      apply andb_true_iff in Hmatch as [Hn Hp].
      apply String.eqb_eq in Hn. apply String.eqb_eq in Hp.
      exists r1. auto.
    + apply (find_none _ _ Hfind) in Hin.
      rewrite Hname, Hpwd, !String.eqb_refl in Hin. discriminate.
  - intros Hnone.
    destruct (List.find _ (users (db w))) as [r1|] eqn:Hfind; [|reflexivity].
    apply find_some in Hfind as [Hin1 Hmatch].
    apply andb_true_iff in Hmatch as [Hn Hp].
    apply String.eqb_eq in Hn. apply String.eqb_eq in Hp.
    destruct (Hnone r1 Hin1). auto.
Qed.

Lemma has_admin_app rows added :
  existsb (fun r => String.eqb (role r) "admin") rows = true ->
  existsb (fun r => String.eqb (role r) "admin") (rows ++ added) = true.
Proof. intros H. rewrite existsb_app, H. reflexivity. Qed.

(** X13: [init_db] creates the admin account once.  With a row of role
    admin it does nothing; without one, and without a row named admin, it
    appends the row admin with the digest of admin123, the role admin and
    the score 0, after which it does nothing; without one but with a row
    named admin, it raises IntegrityError and writes nothing. *)
Theorem init_db_creates_admin_once w :
  (has_admin (db w) = true -> init_db w = Returned tt w)
  /\ (has_admin (db w) = false -> find_user (db w) "admin" = None ->
      exists w1,
        init_db w = Returned tt w1
        /\ users (db w1)
           = users (db w) ++ [User "admin" (sha256_hexdigest "admin123") "admin" 0%float]
        /\ config (db w1) = config (db w) /\ questions (db w1) = questions (db w)
        /\ ss w1 = ss w /\ init_db w1 = Returned tt w1)
  /\ (has_admin (db w) = false ->
      forall r, find_user (db w) "admin" = Some r -> init_db w = Raised IntegrityError w).
Proof.
  unfold init_db. run. split; [|split].
  - now intros ->.
  - intros -> Hnew. unfold insert_user. simpl. rewrite Hnew. eexists.
    split; [reflexivity|]. simpl. repeat split.
    unfold has_admin. simpl. rewrite existsb_app. simpl. now rewrite orb_true_r.
  - intros -> r Hr. unfold insert_user. simpl. now rewrite Hr.
Qed.

(* ================================================================= *)
(** ** Further properties of the admin page *)

Lemma save_settings_eq ui w :
  btn_save ui = true ->
  exists w1,
    save_settings ui w = Returned [st_success "Settings Saved!"] w1
    /\ users (db w1) = users (db w) /\ questions (db w1) = questions (db w)
    /\ q_seq (db w1) = q_seq (db w) /\ ss w1 = ss w
    /\ config (db w1)
       = <["show_result" := flag (show_res ui)]>
           (<["penalty" := str_of_float (pen_amt ui)]>
              (<["neg_marking" := flag (ena_neg ui)]>
                 (<["duration" := str_of_int (dur ui)]>
                    (<["start_time" := isoformat (IST_localize (exam_wall ui))]>
                       (config (db w)))))).
Proof.
  intros Hbtn. unfold save_settings. rewrite Hbtn. run. simpl.
  eexists. split; [reflexivity|]. simpl. auto 10.
Qed.

Lemma flag_is_1 b : String.eqb (flag b) "1" = b.
Proof. now destruct b. Qed.

(** X19: what "Save Settings" writes is what the exam reads.  A pressed
    "Save Settings" returns with users, questions and session as they were
    and config changed at the five keys only.  On the saved config the
    scoring rules read as the checkbox and, where float reads back what str
    wrote of the penalty, that number; the schedule reads as the localized
    form time and the duration, where fromisoformat and int read back what
    isoformat and str wrote; and show_result is '1' exactly when the third
    checkbox is ticked. *)
Theorem saved_settings_govern_the_exam ui w :
  btn_save ui = true ->
  let start := IST_localize (exam_wall ui) in
  exists w1,
    save_settings ui w = Returned [st_success "Settings Saved!"] w1
    /\ users (db w1) = users (db w) /\ questions (db w1) = questions (db w)
    /\ ss w1 = ss w
    /\ (forall k, ~ In k ["start_time"; "duration"; "neg_marking"; "penalty"; "show_result"] ->
        config (db w1) !! k = config (db w) !! k)
    /\ (forall p, float_of_str (str_of_float (pen_amt ui)) = Some p ->
        read_rules w1 = Returned (ena_neg ui, p) w1)
    /\ (forall end_,
          fromisoformat (isoformat start) = Some (Aware start) ->
          int_of_str (str_of_int (dur ui)) = Some (dur ui) ->
          add_minutes (Aware start) (dur ui) = Some (Aware end_) ->
          scheduled (db w1) start (dur ui) end_)
    /\ (config (db w1) !! "show_result" = Some "1" <-> show_res ui = true).
Proof.
  intros Hbtn start.
  destruct (save_settings_eq ui w Hbtn) as (w1 & Hrun & Hu & Hq & _ & Hss & Hc).
  exists w1. split; [exact Hrun|]. split; [exact Hu|]. split; [exact Hq|].
  split; [exact Hss|]. split; [|split; [|split]].
  - intros k Hk. rewrite Hc. simpl in Hk.
    rewrite !lookup_insert_ne by (intros <-; tauto). reflexivity.
  - intros p Hp. unfold read_rules. run. rewrite Hc.
    rewrite (lookup_insert_ne _ "show_result" "neg_marking") by discriminate.
    rewrite (lookup_insert_ne _ "penalty" "neg_marking") by discriminate.
    rewrite lookup_insert_eq.
    rewrite (lookup_insert_ne _ "show_result" "penalty") by discriminate.
    rewrite lookup_insert_eq. rewrite Hp, flag_is_1. reflexivity.
  - intros end_ Hstart Hdur Hend.
    exists (isoformat start), (str_of_int (dur ui)). rewrite Hc.
    split; [|split; [|auto]].
    + now rewrite !lookup_insert_ne, lookup_insert_eq by discriminate.
    + now rewrite !lookup_insert_ne, lookup_insert_eq by discriminate.
  - rewrite Hc, lookup_insert_eq. destruct (show_res ui); simpl; split; congruence.
Qed.

Lemma numbered_ids rows : forall i,
  StronglySorted Z.lt (map q_id (numbered i rows))
  /\ Forall (fun q => i < q_id q <= i + Z.of_nat (length rows)) (numbered i rows).
Proof.
  induction rows as [|c rows IH]; intros i; [split; constructor|].
  destruct (IH (i + 1)) as [Hs Hb]. cbn [numbered map]. split.
  - constructor; [exact Hs|]. apply List.Forall_map.
    eapply List.Forall_impl; [|exact Hb]. simpl. intros q Hq. lia.
  - constructor; [simpl; lia|].
    eapply List.Forall_impl; [|exact Hb]. cbn [length]. intros q Hq. lia.
Qed.

Lemma numbered_id_list rows : forall i,
  map q_id (numbered i rows) = map (fun k => i + Z.of_nat k) (seq 1 (length rows)).
Proof.
  induction rows as [|c rows IH]; intros i; [reflexivity|].
  cbn [numbered map length seq]. rewrite IH, <- (seq_shift (length rows) 1), map_map.
  change (q_id (new_question (i + 1) c)) with (i + 1).
  replace (i + Z.of_nat 1) with (i + 1) by lia.
  apply (f_equal (cons (i + 1))). apply map_ext. intros k. lia.
Qed.

Lemma last_grow_q_seq rows : forall d,
  q_seq (List.last (grow d rows) d) = q_seq d + Z.of_nat (length rows).
Proof.
  induction rows as [|c rows IH]; intros d; [simpl; lia|]. cbn [grow].
  change (List.last (insert_question c d :: grow (insert_question c d) rows) d)
    with (match grow (insert_question c d) rows with [] => insert_question c d
          | _ :: _ => List.last (grow (insert_question c d) rows) d end).
  rewrite <- (last_default _ (insert_question c d) d).
  rewrite IH. cbn [length]. simpl. lia.
Qed.

(** The bank after the upload of [rows] over the database [d]. *)
Lemma upload_ids d rows :
  let d0 := delete_questions d in
  let d' := List.last (grow d0 rows) d0 in
  questions d' = numbered (q_seq d) rows
  /\ q_seq d' = q_seq d + Z.of_nat (length rows)
  /\ ids_in_order d'.
Proof.
  intros d0 d'.
  assert (Hq : questions d' = numbered (q_seq d) rows)
    by apply (last_grow_questions rows d0).
  assert (Hs : q_seq d' = q_seq d + Z.of_nat (length rows))
    by apply (last_grow_q_seq rows d0).
  split; [exact Hq|]. split; [exact Hs|].
  destruct (numbered_ids rows (q_seq d)) as [Hsorted Hbound].
  unfold ids_in_order. rewrite Hq, Hs. split; [exact Hsorted|].
  eapply List.Forall_impl; [|exact Hbound]. simpl. intros q Hq'. lia.
Qed.

Lemma process_csv_db ui w df :
  up_file ui = Some (Some df) -> btn_process ui = true ->
  db (world_of (process_csv ui w))
  = List.last (grow (delete_questions (db w)) (readable df)) (delete_questions (db w)).
Proof.
  intros Hfile Hbtn. rewrite (process_csv_eq ui w df Hfile Hbtn).
  destruct (for_each_insert df
              (World (delete_questions (db w)) (ss w)
                     (delete_questions (db w) :: commits w))) as (_ & Hd & _).
  simpl in Hd. rewrite <- Hd. now destruct (for_each df insert_row _).
Qed.

(** X20: the upload numbers its rows after every id given before.  When
    the upload has run, to its end or to the first row lacking a column, the
    questions in the bank carry the ids that follow the old counter, one by
    one and ascending, and the counter stands at the last of them: no id of
    a replaced question is given again.  So answers kept in a session under
    ids of replaced questions score as no answers at all. *)
Theorem upload_numbers_rows_after_the_old_ids ui w df :
  up_file ui = Some (Some df) -> btn_process ui = true ->
  let d' := db (world_of (process_csv ui w)) in
  q_seq d' = q_seq (db w) + Z.of_nat (length (readable df))
  /\ map q_id (questions d')
     = map (fun k => q_seq (db w) + Z.of_nat k) (seq 1 (length (readable df)))
  /\ ids_in_order d'
  /\ forall answers is_neg pen_val,
       (forall k, is_Some (answers !! k) -> k <= q_seq (db w)) ->
       final_percent (questions d') answers is_neg pen_val
       = final_percent (questions d') ∅ is_neg pen_val.
Proof.
  intros Hfile Hbtn d'. subst d'. rewrite (process_csv_db ui w df Hfile Hbtn).
  destruct (upload_ids (db w) (readable df)) as (Hq & Hs & Hids).
  split; [exact Hs|]. split; [|split; [exact Hids|]].
  - rewrite Hq. apply numbered_id_list.
  - intros answers is_neg pen_val Hold. apply final_percent_ext.
    intros q Hin. rewrite Hq in Hin.
    destruct (numbered_ids (readable df) (q_seq (db w))) as [_ Hbound].
    rewrite List.Forall_forall in Hbound. specialize (Hbound q Hin).
    rewrite lookup_empty.
    destruct (answers !! q_id q) as [a|] eqn:Ha; [|reflexivity].
    assert (q_id q <= q_seq (db w)) by (apply Hold; rewrite Ha; eauto). lia.
Qed.

Lemma ids_in_order_same d d' :
  questions d' = questions d -> q_seq d' = q_seq d ->
  ids_in_order d -> ids_in_order d'.
Proof. unfold ids_in_order. now intros -> ->. Qed.

Lemma process_csv_ids ui w :
  ids_in_order (db w) -> ids_in_order (db (world_of (process_csv ui w))).
Proof.
  intros Hids.
  destruct (up_file ui) as [[df|]|] eqn:Hfile;
    [| unfold process_csv; rewrite Hfile; destruct (btn_process ui); exact Hids
     | unfold process_csv; rewrite Hfile; exact Hids].
  destruct (btn_process ui) eqn:Hbtn;
    [|unfold process_csv; rewrite Hfile, Hbtn; exact Hids].
  rewrite (process_csv_db ui w df Hfile Hbtn).
  apply (upload_ids (db w) (readable df)).
Qed.

Lemma page_admin_ids ui w :
  ids_in_order (db w) -> ids_in_order (db (world_of (page_admin ui w))).
Proof.
  intros Hids.
  assert (Hsave : exists shown w1,
             save_settings ui w = Returned shown w1 /\ ids_in_order (db w1)).
  { destruct (btn_save ui) eqn:Hbtn.
    - destruct (save_settings_eq ui w Hbtn) as (w1 & -> & _ & Hq & Hs & _).
      exists [st_success "Settings Saved!"], w1. split; [reflexivity|].
      now apply ids_in_order_same with (db w).
    - unfold save_settings. rewrite Hbtn. now exists [], w. }
  destruct Hsave as (shown & w1 & Hrun & Hids1).
  unfold page_admin. unfold bind at 1. rewrite Hrun.
  apply (process_csv_ids ui) in Hids1. unfold bind, ret.
  now destruct (process_csv ui w1).
Qed.

(* ================================================================= *)
(** ** Further properties of the whole script *)

Lemma registry_grows_refl rows : registry_grows rows rows.
Proof.
  exists rows, []. rewrite app_nil_r. repeat split; [|auto].
  induction rows; constructor; [now repeat split | assumption].
Qed.

Lemma same_keys_trans rows : forall kept k,
  Forall2 same_keys rows kept -> Forall2 same_keys kept k -> Forall2 same_keys rows k.
Proof.
  induction rows as [|r rows IH]; intros kept k H1 H2.
  - inversion H1; subst. inversion H2; subst. constructor.
  - inversion H1 as [|? r1 ? kept1 Hr Hrows]; subst.
    inversion H2 as [|? r2 ? k1 Hr2 Hrows2]; subst.
    constructor; [|now apply IH with kept1].
    destruct Hr as (? & ? & ?), Hr2 as (? & ? & ?). repeat split; congruence.
Qed.

Lemma registry_grows_trans rows rows1 rows2 :
  registry_grows rows rows1 -> registry_grows rows1 rows2 -> registry_grows rows rows2.
Proof.
  intros (kept & added & -> & Hkept & Huniq) (kept2 & added2 & -> & Hkept2 & Huniq2).
  apply Forall2_app_inv_l in Hkept2 as (k & a & Hk & Ha & ->).
  exists k, (a ++ added2). rewrite app_assoc. repeat split.
  - now apply same_keys_trans with kept.
  - intros H. apply Huniq2, Huniq, H.
Qed.

Lemma accounts_only_refl d : accounts_only d d.
Proof. split; [apply registry_grows_refl | auto]. Qed.

Lemma accounts_only_trans d d1 d2 :
  accounts_only d d1 -> accounts_only d1 d2 -> accounts_only d d2.
Proof.
  intros (Hu & Hc & Hq & Hs) (Hu1 & Hc1 & Hq1 & Hs1).
  split; [now apply registry_grows_trans with (users d1)|].
  split; [congruence|]. split; congruence.
Qed.

Lemma insert_user_grows d r d' :
  insert_user d r = Some d' -> accounts_only d d'.
Proof.
  unfold insert_user. destruct (find_user d (username r)) eqn:Hnew; [discriminate|].
  intros [= <-]. split; [|auto]. simpl.
  exists (users d), [r]. split; [reflexivity|]. split.
  - clear Hnew. induction (users d); constructor; [now repeat split | assumption].
  - intros Huniq. rewrite map_app. simpl.
    apply List.NoDup_app; [exact Huniq | repeat constructor; intros [] |].
    intros a Ha [<-|[]]. now apply (find_user_None d (username r)).
Qed.

Lemma update_score_grows d y u : accounts_only d (update_score d y u).
Proof.
  split; [|auto].
  exists (users (update_score d y u)), []. rewrite app_nil_r.
  unfold update_score. simpl. split; [reflexivity|]. split.
  - induction (users d) as [|r rows IH]; simpl; constructor; [|exact IH].
    unfold same_keys, set_score. now destruct (String.eqb (username r) u).
  - intros H. rewrite map_map.
    erewrite map_ext; [exact H|]. intros r. apply username_set_score.
Qed.

Lemma init_db_grows w o :
  init_db w = o -> accounts_only (db w) (db (world_of o)) /\ ss (world_of o) = ss w.
Proof.
  intros <-. unfold init_db. run.
  destruct (has_admin (db w)); [split; [apply accounts_only_refl | reflexivity]|].
  destruct (insert_user (db w) _) as [d'|] eqn:Hins; simpl.
  - split; [now apply insert_user_grows in Hins | reflexivity].
  - split; [apply accounts_only_refl | reflexivity].
Qed.

Lemma sign_up_grows ui w o :
  sign_up ui w = o -> accounts_only (db w) (db (world_of o)).
Proof.
  intros <-. unfold sign_up. destruct (btn_create ui); [|apply accounts_only_refl].
  run. destruct (find_user (db w) (in_new_u ui)); [apply accounts_only_refl|].
  destruct (insert_user (db w) _) as [d'|] eqn:Hins; simpl.
  - now apply insert_user_grows in Hins.
  - apply accounts_only_refl.
Qed.

Lemma page_login_grows ui w o :
  page_login ui w = o -> accounts_only (db w) (db (world_of o)).
Proof.
  intros <-. unfold page_login.
  destruct (btn_login ui); [|now apply sign_up_grows with ui].
  unfold bind at 1. unfold query at 1.
  destruct (find_login (db w) _ _); [apply accounts_only_refl|].
  unfold bind. pose proof (sign_up_grows ui w _ eq_refl) as H.
  now destruct (sign_up ui w).
Qed.

Lemma page_exam_grows now ui w o :
  page_exam now ui w = o -> accounts_only (db w) (db (world_of o)).
Proof.
  intros <-.
  destruct (page_exam_db now ui w _ eq_refl) as [-> | (user & x & y & _ & _ & _ & ->)].
  - apply accounts_only_refl.
  - apply update_score_grows.
Qed.

(** The run of the script, written out branch by branch on the world
    [init_db] leaves. *)
Lemma main_eq i w :
  main i w
  = match init_db w with
    | Raised e w1 => Raised e w1
    | Returned _ w1 =>
        match s_user (ss w1) with
        | None =>
            match page_login (on_login i) w1 with
            | Returned shown w2 => Returned (LoginPage shown) w2
            | Raised e w2 => Raised e w2
            end
        | Some _ =>
            if btn_logout i then
              Returned LoggedOut
                (World (db w1) (Session None (s_role (ss w1)) (s_user_answers (ss w1)))
                       (commits w1))
            else
              match s_role (ss w1) with
              | None => Raised KeyError w1
              | Some r =>
                  if String.eqb r "admin" then
                    match page_admin (on_admin i) w1 with
                    | Returned shown w2 => Returned (AdminPage shown) w2
                    | Raised e w2 => Raised e w2
                    end
                  else
                    match page_exam (now_ist i) (on_exam i) w1 with
                    | Returned v w2 => Returned (ExamPage v) w2
                    | Raised e w2 => Raised e w2
                    end
              end
        end
    end.
Proof.
  unfold main. unfold bind at 1. destruct (init_db w) as [[] w1|e w1]; [|reflexivity].
  unfold bind at 1. unfold session_get at 1.
  destruct (s_user (ss w1)); [|reflexivity].
  destruct (btn_logout i); [reflexivity|].
  unfold bind at 1. unfold session_get at 1. unfold bind at 1. unfold orraise at 1.
  destruct (s_role (ss w1)) as [r|]; [|reflexivity]. unfold ret at 1.
  now destruct (String.eqb r "admin").
Qed.

Lemma main_cases i w :
  exists w1,
    world_of (init_db w) = w1
    /\ (world_of (main i w) = w1
        \/ world_of (main i w) = world_of (page_login (on_login i) w1)
           /\ s_user (ss w1) = None
        \/ world_of (main i w)
           = World (db w1) (Session None (s_role (ss w1)) (s_user_answers (ss w1)))
                   (commits w1)
        \/ world_of (main i w) = world_of (page_admin (on_admin i) w1)
           /\ s_role (ss w1) = Some "admin"
        \/ world_of (main i w) = world_of (page_exam (now_ist i) (on_exam i) w1)
           /\ s_role (ss w1) <> Some "admin").
Proof.
  rewrite main_eq.
  destruct (init_db w) as [[] w1|e w1]; simpl; exists w1; (split; [reflexivity|]);
    [|now left].
  destruct (s_user (ss w1)) as [user|] eqn:Hu.
  - destruct (btn_logout i); [right; right; left; reflexivity|].
    destruct (s_role (ss w1)) as [r|] eqn:Hr; [|now left].
    destruct (String.eqb_spec r "admin") as [->|Hne].
    + right. right. right. left. split; [|reflexivity].
      now destruct (page_admin (on_admin i) w1).
    + right. right. right. right. split; [|congruence].
      now destruct (page_exam (now_ist i) (on_exam i) w1).
  - right. left. split; [|reflexivity].
    now destruct (page_login (on_login i) w1).
Qed.

Lemma main_grows i w :
  registry_grows (users (db w)) (users (db (world_of (main i w)))).
Proof.
  destruct (main_cases i w) as (w1 & Hinit & Hmain).
  destruct (init_db_grows w _ eq_refl) as ((Hgrow & _) & _). rewrite Hinit in Hgrow.
  apply registry_grows_trans with (users (db w1)); [exact Hgrow|].
  destruct Hmain as [-> | [[-> _] | [-> | [[-> _] | [-> _]]]]].
  - apply registry_grows_refl.
  - now apply (page_login_grows (on_login i) w1).
  - apply registry_grows_refl.
  - rewrite page_admin_users. apply registry_grows_refl.
  - now apply (page_exam_grows (now_ist i) (on_exam i) w1).
Qed.

(** X14: the usernames stay a key.  Over any sequence of runs of the
    script, by any sessions with any widgets, a registry that holds no
    username twice never comes to hold one twice. *)
Theorem usernames_stay_unique runs d :
  unique_users d -> unique_users (script_runs d runs).
Proof.
  revert d. unfold script_runs.
  induction runs as [|[s i] runs IH]; intros d Huniq; simpl; [exact Huniq|].
  apply IH. destruct (main_grows i (World d s [])) as (kept & added & E & _ & Hkeep).
  unfold unique_users in *. simpl in *. now apply Hkeep.
Qed.

Lemma find_user_grows rows rows' u r :
  registry_grows rows rows' ->
  List.find (fun r0 => String.eqb (username r0) u) rows = Some r ->
  exists r', List.find (fun r0 => String.eqb (username r0) u) rows' = Some r'
             /\ same_keys r r'.
Proof.
  intros (kept & added & -> & Hkept & _).
  induction Hkept as [|r0 k0 rows kept Hr _ IH]; simpl; [discriminate|].
  destruct Hr as (Hname & Hpwd & Hrole). rewrite Hname.
  destruct (String.eqb (username r0) u).
  - intros [= <-]. exists k0. repeat split; assumption.
  - exact IH.
Qed.

(** X15: no run removes an account or changes its password or role.
    Over any sequence of runs of the script, an account of the registry is
    still found under its name, with the password digest and the role it
    had. *)
Theorem accounts_are_never_lost_or_altered runs d u r :
  find_user d u = Some r ->
  exists r', find_user (script_runs d runs) u = Some r'
             /\ password r' = password r /\ role r' = role r.
Proof.
  revert d r. unfold script_runs.
  induction runs as [|[s i] runs IH]; intros d r Hfound; simpl; [eauto|].
  destruct (find_user_grows _ _ u r (main_grows i (World d s [])) Hfound)
    as (r1 & Hfound1 & _ & Hpwd & Hrole).
  destruct (IH _ r1 Hfound1) as (r' & Hfound' & Hpwd' & Hrole').
  exists r'. repeat split; [exact Hfound' | congruence | congruence].
Qed.

(** X16: no run of the script changes a submitted score.  Over any
    sequence of runs of the whole script (login, sign-up, logout, admin page
    with settings and upload, exam page), by any sessions, a stored score
    other than SENTINEL stays as it is. *)
Theorem submitted_score_survives_script_runs runs d u x :
  select_score d u = Some x -> (x =? SENTINEL)%float = false ->
  select_score (script_runs d runs) u = Some x.
Proof.
  intros Hx Hs. revert d Hx. unfold script_runs.
  induction runs as [|[s i] runs IH]; intros d Hx; simpl; [exact Hx|].
  apply IH. now apply (main_keeps_submitted_score i (World d s [])).
Qed.

(** X17: only an admin session changes the settings and the questions.
    A run of the script by a session whose role is not admin, logged in or
    not, leaves config, the question bank and the id counter as they were. *)
Theorem only_admin_sessions_change_settings i w :
  s_role (ss w) <> Some "admin" ->
  config (db (world_of (main i w))) = config (db w)
  /\ questions (db (world_of (main i w))) = questions (db w)
  /\ q_seq (db (world_of (main i w))) = q_seq (db w).
Proof.
  intros Hrole. destruct (main_cases i w) as (w1 & Hinit & Hmain).
  destruct (init_db_grows w _ eq_refl) as ((_ & Hc & Hq & Hseq) & Hss).
  rewrite Hinit in Hc, Hq, Hseq, Hss. rewrite <- Hc, <- Hq, <- Hseq.
  destruct Hmain as [-> | [[-> _] | [-> | [[-> Hadmin] | [-> _]]]]].
  - auto.
  - now destruct (page_login_grows (on_login i) w1 _ eq_refl) as (_ & ? & ? & ?).
  - auto.
  - rewrite Hss in Hadmin. contradiction.
  - now destruct (page_exam_grows (now_ist i) (on_exam i) w1 _ eq_refl) as (_ & ? & ? & ?).
Qed.

Lemma main_ids i w :
  ids_in_order (db w) -> ids_in_order (db (world_of (main i w))).
Proof.
  intros Hids. destruct (main_cases i w) as (w1 & Hinit & Hmain).
  destruct (init_db_grows w _ eq_refl) as ((_ & _ & Hq & Hs) & _).
  rewrite Hinit in Hq, Hs.
  assert (Hids1 : ids_in_order (db w1)) by now apply ids_in_order_same with (db w).
  destruct Hmain as [-> | [[-> _] | [-> | [[-> _] | [-> _]]]]].
  - exact Hids1.
  - destruct (page_login_grows (on_login i) w1 _ eq_refl) as (_ & _ & Hq1 & Hs1).
    now apply ids_in_order_same with (db w1).
  - exact Hids1.
  - now apply page_admin_ids.
  - destruct (page_exam_grows (now_ist i) (on_exam i) w1 _ eq_refl) as (_ & _ & Hq1 & Hs1).
    now apply ids_in_order_same with (db w1).
Qed.

(** X21: the question ids stay distinct, ascending and below the counter.
    Over any sequence of runs of the script, uploads that stop half-way
    included, a bank whose ids ascend strictly and do not exceed the id
    counter stays such a bank; in particular no two questions share an id. *)
Theorem question_ids_stay_in_order runs d :
  ids_in_order d ->
  ids_in_order (script_runs d runs)
  /\ List.NoDup (map q_id (questions (script_runs d runs))).
Proof.
  intros Hids.
  assert (H : ids_in_order (script_runs d runs)).
  { revert d Hids. unfold script_runs.
    induction runs as [|[s i] runs IH]; intros d Hids; simpl; [exact Hids|].
    apply IH. now apply (main_ids i (World d s [])). }
  split; [exact H|]. destruct H as [Hsorted _].
  induction Hsorted as [|a l _ IH Hlt]; constructor; [|exact IH].
  intros Hin. rewrite List.Forall_forall in Hlt. specialize (Hlt a Hin). lia.
Qed.

Lemma init_db_admin w : has_admin (db w) = true -> init_db w = Returned tt w.
Proof. intros H. unfold init_db. run. now rewrite H. Qed.

Lemma page_login_found ui w r :
  btn_login ui = true ->
  find_login (db w) (in_user ui) (make_hashes (in_pwd ui)) = Some r ->
  page_login ui w
  = Returned [] (World (db w) (Session (Some (username r)) (Some (role r))
                                       (s_user_answers (ss w)))
                       (commits w)).
Proof. intros Hbtn Hfound. unfold page_login. rewrite Hbtn. run. now rewrite Hfound. Qed.

(** X18: the answers survive logout and the next login.  With an admin
    account in place, a run with "Logout" pressed removes only the user
    from the session: the role and the answers stay; and the run that then
    logs an account in gives the session that account's name and role and
    leaves it the answers of whoever was there before. *)
Theorem answers_survive_logout_and_login i w user :
  has_admin (db w) = true -> s_user (ss w) = Some user -> btn_logout i = true ->
  let out := World (db w) (Session None (s_role (ss w)) (s_user_answers (ss w)))
               (commits w) in
  main i w = Returned LoggedOut out
  /\ forall i2 r,
       btn_login (on_login i2) = true ->
       find_login (db w) (in_user (on_login i2)) (make_hashes (in_pwd (on_login i2)))
       = Some r ->
       main i2 out
       = Returned (LoginPage [])
           (World (db w) (Session (Some (username r)) (Some (role r))
                                  (s_user_answers (ss w)))
                  (commits w)).
Proof.
  intros Hadmin Hu Hout out. split.
  - rewrite main_eq, (init_db_admin w Hadmin), Hu, Hout. reflexivity.
  - intros i2 r Hbtn Hfound.
    rewrite main_eq, (init_db_admin out Hadmin). simpl.
    now rewrite (page_login_found (on_login i2) out r Hbtn Hfound).
Qed.

End App.



(* ================================================================= *)
(** ** The model run on concrete data *)

Import Fixture.

Abbreviation run_submit := (calculate_and_submit Sample.float_of_str).
Abbreviation run_exam := (page_exam Sample.float_of_str Sample.int_of_str Sample.fromisoformat).
Abbreviation run_after_read :=
  (exam_after_read Sample.float_of_str Sample.int_of_str Sample.fromisoformat).
Abbreviation run_login := (page_login Sample.sha256_hexdigest).

(** The two scoring examples of the specification that come out as stated
    (P3 and P4: q1 right, q2 wrong; P5: q2 left open). *)
Example scoring_without_penalty :
  final_percent [q1; q2] (<[1 := Some "A"]> (<[2 := Some "C"]> ∅)) false 0.25%float
  = Some (PyFloat 50%float).
Proof. vm_compute. reflexivity. Qed.

Example scoring_with_penalty :
  final_percent [q1; q2] (<[1 := Some "A"]> (<[2 := Some "C"]> ∅)) true 0.25%float
  = Some (PyFloat 37.5%float).
Proof. vm_compute. reflexivity. Qed.

Example scoring_unanswered :
  final_percent [q1; q2] (<[1 := Some "A"]> ∅) true 0.25%float
  = Some (PyFloat 50%float).
Proof. vm_compute. reflexivity. Qed.

(** C2, at the input where the code leaves the rule: a question uploaded
    with an empty correct_opt cell and left unanswered.  The rule awards 0
    to an unanswered question, so the percentage is 0 by the rule; the code
    compares [None == None], counts the question as right, and returns and
    stores 100, with negative marking or without. *)
Theorem unanswered_blank_key_counts_as_right :
  rule_percent [q_blank] ∅ true 0.25%float = Some (PyFloat 0%float)
  /\ final_percent [q_blank] ∅ true 0.25%float = Some (PyFloat 100%float)
  /\ final_percent [q_blank] ∅ false 0.25%float = Some (PyFloat 100%float)
  /\ exists w',
       run_submit "alice" (start (bank (with_penalty schedule) [q_blank]) (student None))
         = Returned (PyFloat 100%float) w'
       /\ select_score (db w') "alice" = Some 100%float.
Proof.
  split; [vm_compute; reflexivity|].
  split; [vm_compute; reflexivity|].
  split; [vm_compute; reflexivity|].
  eexists. split; vm_compute; reflexivity.
Qed.

(** C6: the percentage is not clamped.  One question answered wrong under
    negative marking with a penalty of 0.25 scores -25, below 0, and the
    run returns -25 and stores -25 on the student's row. *)
Theorem negative_percentage_is_kept :
  let answers : gmap Z (option string) := <[1 := Some "B"]> ∅ in
  let w := start (bank (with_penalty schedule) [q1]) (student (Some answers)) in
  final_percent [q1] answers true 0.25%float = Some (PyFloat (-25)%float)
  /\ ((-25) <? 0)%float = true
  /\ exists w',
       run_submit "alice" w = Returned (PyFloat (-25)%float) w'
       /\ select_score (db w') "alice" = Some (-25)%float.
Proof.
  split; [vm_compute; reflexivity|].
  split; [reflexivity|].
  eexists. split; vm_compute; reflexivity.
Qed.

(** C5 at an empty bank, with a penalty configured and an answer held. *)
Lemma empty_bank_scores_zero_witness :
  let w := start (bank (with_penalty schedule) []) (student (Some (<[1 := Some "A"]> ∅))) in
  questions (db w) = []
  /\ run_submit "alice" w
     = Returned (PyInt 0) (World (update_score (db w) 0%float "alice") (ss w)
                                 (update_score (db w) 0%float "alice" :: commits w)).
Proof.
  split; [reflexivity|].
  apply (empty_bank_scores_zero Sample.float_of_str "alice" _ true 0.25%float);
    vm_compute; reflexivity.
Defined.

(** C10 at a registry that holds admin and alice: a second alice is turned
    away and the world is as before; bob gets a student row with -999. *)
Lemma sign_up_rejects_known_creates_student_witness :
  let w := start (bank schedule [q1]) (Session None None None) in
  run_login (create "alice" "password") w = Returned [st_error "User exists"] w
  /\ exists w',
       run_login (create "bob" "password") w
         = Returned [st_success "Account created! Please Login."] w'
       /\ users (db w')
          = [admin; alice;
             User "bob" "5e884898da28047151d0e56f8dc6292773603d0d6aabbdd62a11ef721d1542d8"
                  "student" (-999)%float].
Proof.
  intros w. split.
  - apply (proj1 (sign_up_rejects_known_creates_student Sample.sha256_hexdigest
                    (create "alice" "password") w eq_refl eq_refl) alice).
    reflexivity.
  - eexists.
    destruct (proj2 (sign_up_rejects_known_creates_student Sample.sha256_hexdigest
                       (create "bob" "password") w eq_refl eq_refl) eq_refl) as (Hrun & _ & _).
    split; [exact Hrun | reflexivity].
Defined.

(** The sample schedule reads as 10:00 to 10:30 IST. *)
Lemma schedule_reads c qs :
  c !! "start_time" = Some "2024-01-15T10:00:00+05:30" -> c !! "duration" = Some "30" ->
  scheduled Sample.int_of_str Sample.fromisoformat (bank c qs)
    (clock 10 0 0) 30 (clock 10 30 0).
Proof.
  intros Hs Hd. exists "2024-01-15T10:00:00+05:30", "30".
  repeat split; [exact Hs | exact Hd | vm_compute; reflexivity ..].
Defined.


(** C4 refuted as stated: with the text "tomorrow" as start_time, or with
    the text "half an hour" as duration, the run of a student who has not
    submitted does not reach NOT_SCHEDULED; it ends in ValueError. *)
Lemma malformed_schedule_raises :
  let bad_start := <["start_time" := "tomorrow"]> schedule in
  let bad_duration := <["duration" := "half an hour"]> schedule in
  let w1 := start (bank bad_start [q1]) (student None) in
  let w2 := start (bank bad_duration [q1]) (student None) in
  select_score (db w1) "alice" = Some SENTINEL
  /\ run_exam (clock 10 15 0) idle w1 = Raised ValueError w1
  /\ run_exam (clock 10 15 0) idle w2 = Raised ValueError w2.
Proof. repeat split; vm_compute; reflexivity. Qed.

(** C4 as amended, on an empty config and on the two malformed ones. *)
Lemma missing_schedule_shown_malformed_raises_witness :
  let none := start (bank ∅ [q1]) (student None) in
  let bad := start (bank (<["start_time" := "tomorrow"]> schedule) [q1]) (student None) in
  run_exam (clock 10 15 0) idle none = Returned NotScheduled none
  /\ run_exam (clock 10 15 0) idle bad = Raised ValueError bad.
Proof.
  intros none bad. split.
  - apply (proj1 (missing_schedule_shown_malformed_raises Sample.float_of_str
                    Sample.int_of_str Sample.fromisoformat (clock 10 15 0) idle none
                    "alice" SENTINEL eq_refl eq_refl eq_refl)).
    left. reflexivity.
  - destruct (proj2 (missing_schedule_shown_malformed_raises Sample.float_of_str
                       Sample.int_of_str Sample.fromisoformat (clock 10 15 0) idle bad
                       "alice" SENTINEL eq_refl eq_refl eq_refl) "tomorrow" "30")
      as [Hraise _]; [reflexivity | reflexivity |].
    apply Hraise. reflexivity.
Defined.

(** C7 on the sample exam at 10:00:00 sharp. *)
Lemma start_is_inclusive_witness :
  let w := start (bank (with_penalty schedule) [q1; q2]) (student None) in
  exists v w', run_exam (clock 10 0 0) idle w = Returned v w' /\ phase_of v = IN_PROGRESS.
Proof.
  intros w.
  destruct (start_is_inclusive Sample.float_of_str Sample.int_of_str Sample.fromisoformat
              (clock 10 0 0) idle w "alice" SENTINEL (clock 10 0 0) 30 (clock 10 30 0)
              eq_refl eq_refl eq_refl) as (_ & _ & Hreturns).
  - apply schedule_reads; reflexivity.
  - lia.
  - reflexivity.
  - apply (Hreturns true 0.25%float).
    + vm_compute. reflexivity.
    + eexists. vm_compute. reflexivity.
Defined.

(** C9 on the sample exam: at 10:30:00 sharp the interface is shown with
    no time left, and the run that expires at 10:30:01 is after the end. *)
Lemma end_is_inclusive_witness :
  let w := start (bank (with_penalty schedule) [q1; q2]) (student None) in
  (exists sub w', run_exam (clock 10 30 0) idle w = Returned (InProgress 0 sub) w')
  /\ instant (clock 10 30 0) < instant (clock 10 30 1).
Proof.
  intros w.
  assert (Hsched : scheduled Sample.int_of_str Sample.fromisoformat (db w)
                     (clock 10 0 0) 30 (clock 10 30 0))
    by (apply schedule_reads; reflexivity).
  split.
  - destruct (end_is_inclusive Sample.float_of_str Sample.int_of_str
                Sample.fromisoformat (clock 10 30 0) idle w "alice" SENTINEL
                (clock 10 0 0) 30 (clock 10 30 0) eq_refl eq_refl eq_refl Hsched)
      as [Hend _].
    destruct Hend as [_ Hreturns]; [lia | reflexivity |].
    apply (Hreturns true 0.25%float).
    + vm_compute. reflexivity.
    + eexists. vm_compute. reflexivity.
  - destruct (end_is_inclusive Sample.float_of_str Sample.int_of_str
                Sample.fromisoformat (clock 10 30 1) idle w "alice" SENTINEL
                (clock 10 0 0) 30 (clock 10 30 0) eq_refl eq_refl eq_refl Hsched)
      as (_ & Hexpired & _).
    eapply Hexpired; [vm_compute; reflexivity | reflexivity].
Defined.



(** A percentage can be the SENTINEL itself: one question answered wrong
    under a penalty of 9.99 scores (0 - 9.99) / 1 * 100 = -999.0.  Such a
    submission leaves the student where a student who never submitted is,
    and a later run writes again. *)
Example score_can_equal_sentinel :
  let c := <["neg_marking" := "1"]> (<["penalty" := "9.99"]> schedule) in
  let wrong := start (bank c [q1]) (student (Some (<[1 := Some "B"]> ∅))) in
  let d1 := update_score (bank c [q1]) SENTINEL "alice" in
  let right := start d1 (student (Some (<[1 := Some "A"]> ∅))) in
  run_exam (clock 10 15 0) (ExamUi (fun _ => Some "B") true) wrong
  = Returned (InProgress 900%float (Some (PyFloat SENTINEL)))
      (World d1 (student (Some (<[1 := Some "B"]> ∅))) [d1])
  /\ exists w',
       run_exam (clock 10 16 0) (ExamUi (fun _ => Some "A") true) right
       = Returned (InProgress 840%float (Some (PyFloat 100%float))) w'
       /\ select_score (db w') "alice" = Some 100%float.
Proof.
  split; [vm_compute; reflexivity|].
  eexists. split; vm_compute; reflexivity.
Qed.

(** C8 refuted as stated: the replacement is not one atomic batch.  Over a
    bank holding q1 and q2, the upload of two rows commits three states,
    here newest first: the two new questions, the first new question
    alone, and an empty bank.  And a file without the correct_opt column
    deletes the old set, fails on its first row and leaves the bank empty. *)
Lemma upload_is_observed_half_done :
  let w := start (bank schedule [q1; q2]) (Session (Some "admin") (Some "admin") None) in
  let n1 := Question 3 (Some "7 + 7 = ?") (Some "A") (Some "B") (Some "C") (Some "D") (Some "C") in
  let n2 := Question 4 (Some "8 + 8 = ?") (Some "A") (Some "B") (Some "C") (Some "D") (Some "D") in
  map questions
    (commits (world_of (process_csv
       (upload [row "7 + 7 = ?" "A" "B" "C" "D" "C"; row "8 + 8 = ?" "A" "B" "C" "D" "D"]) w)))
  = [[n1; n2]; [n1]; []]
  /\ exists w',
       process_csv (upload [row_without_key "7 + 7 = ?" "A" "B" "C" "D"]) w = Raised KeyError w'
       /\ questions (db w') = [].
Proof.
  split; [vm_compute; reflexivity|].
  eexists. split; vm_compute; reflexivity.
Qed.

(** C8 as amended, on the same upload: three states are committed, and the
    one numbered 1 holds the first row of the file and nothing else. *)
Lemma upload_commits_row_by_row_witness :
  let w := start (bank schedule [q1; q2]) (Session (Some "admin") (Some "admin") None) in
  let df := [row "7 + 7 = ?" "A" "B" "C" "D" "C"; row "8 + 8 = ?" "A" "B" "C" "D" "D"] in
  exists states,
    commits (world_of (process_csv (upload df) w)) = rev states ++ commits w
    /\ length states = 3%nat
    /\ (forall d', states !! 1%nat = Some d' ->
          questions d' = [Question 3 (Some "7 + 7 = ?") (Some "A") (Some "B") (Some "C")
                            (Some "D") (Some "C")]).
Proof.
  intros w df.
  destruct (upload_commits_row_by_row (upload df) w df eq_refl eq_refl)
    as (states & Hcommits & Hlen & Hstate & _).
  exists states. split; [exact Hcommits|]. split; [exact Hlen|].
  intros d' Hd'. apply Hstate in Hd' as [Hq _]. exact Hq.
Defined.

(* ================================================================= *)
(** ** The further properties on concrete data *)

Abbreviation run_main :=
  (main Sample.float_of_str Sample.int_of_str Sample.fromisoformat Sample.sha256_hexdigest
        Sample.IST_localize Sample.isoformat Sample.str_of_int Sample.str_of_float).
Abbreviation run_script :=
  (script_runs Sample.float_of_str Sample.int_of_str Sample.fromisoformat
               Sample.sha256_hexdigest Sample.IST_localize Sample.isoformat
               Sample.str_of_int Sample.str_of_float).
Abbreviation run_save :=
  (save_settings Sample.IST_localize Sample.isoformat Sample.str_of_int Sample.str_of_float).

(** The radios with "A" chosen for question 1 and "C" for question 2. *)
Abbreviation radios_A_C :=
  (fun k : Z => if k =? 1 then Some "A" else if k =? 2 then Some "C" else None).

(** X1 on the sample bank: an answer kept under the id 7, which no question
    has, changes nothing. *)
Lemma only_answers_to_bank_questions_count_witness :
  final_percent [q1; q2] (<[1 := Some "A"]> (<[2 := Some "C"]> ∅)) true 0.25%float
  = final_percent [q1; q2] (<[7 := Some "B"]> (<[1 := Some "A"]> (<[2 := Some "C"]> ∅)))
      true 0.25%float.
Proof.
  apply only_answers_to_bank_questions_count.
  intros q [<-|[<-|[]]]; vm_compute; reflexivity.
Defined.

(** X3 on the sample bank with nothing answered. *)
Lemma nothing_answered_scores_zero_witness :
  final_percent [q1; q2] ∅ true 0.25%float = Some (PyFloat 0%float).
Proof.
  apply nothing_answered_scores_zero.
  - discriminate.
  - repeat constructor; discriminate.
  - intros q [<-|[<-|[]]]; reflexivity.
Defined.

(** X5 on the sample bank: after the questions are shown the session holds
    "A" for question 1 and "C" for question 2. *)
Lemma render_stores_radio_values_witness :
  let w := start (bank schedule [q1; q2]) (student None) in
  let w' := world_of (render_all (ExamUi radios_A_C false) w) in
  answers_of (ss w') !! 1 = Some (Some "A") /\ answers_of (ss w') !! 2 = Some (Some "C").
Proof.
  intros w w'.
  assert (Hrun : render_all (ExamUi radios_A_C false) w = Returned tt w')
    by (vm_compute; reflexivity).
  destruct (render_stores_radio_values (ExamUi radios_A_C false) w w' Hrun) as (Hq & _).
  split; [apply (Hq q1); left; reflexivity | apply (Hq q2); right; left; reflexivity].
Defined.

(** X6 on the sample bank, for a session that holds "A" for question 1. *)
Lemma offered_answers_render_again_witness :
  let w := start (bank schedule [q1; q2]) (student (Some (<[1 := Some "A"]> ∅))) in
  exists w', render_all (ExamUi radios_A_C false) w = Returned tt w'
             /\ db w' = db w /\ forall ui2, renders ui2 w'.
Proof.
  intros w.
  destruct (offered_answers_render_again (ExamUi radios_A_C false) w)
    as (w' & Hrun & Hnext).
  - repeat constructor; simpl; [intros [H|[]]; discriminate H | intros []].
  - intros q [<-|[<-|[]]]; vm_compute; auto.
  - exists w'. split; [exact Hrun|]. destruct Hnext as (Hdb & _ & Hrenders).
    + intros q [<-|[<-|[]]]; vm_compute; auto.
    + split; assumption.
Defined.

(** X7 on the sample exam at 10:15 with "Submit Final Answers" pressed:
    q1 right, q2 wrong, a penalty of 0.25. *)
Lemma manual_submit_scores_the_radios_witness :
  let w := start (bank (with_penalty schedule) [q1; q2]) (student None) in
  exists w',
    run_exam (clock 10 15 0) (ExamUi radios_A_C true) w
    = Returned (InProgress 900%float (Some (PyFloat 37.5%float))) w'
    /\ select_score (db w') "alice" = Some 37.5%float.
Proof.
  intros w.
  destruct (manual_submit_scores_the_radios Sample.float_of_str Sample.int_of_str
              Sample.fromisoformat (clock 10 15 0) (ExamUi radios_A_C true) w "alice"
              SENTINEL (clock 10 0 0) 30 (clock 10 30 0) true 0.25%float
              (<[1 := Some "A"]> (<[2 := Some "C"]> ∅)) eq_refl eq_refl eq_refl)
    as (final & w' & Hfinal & Hrun & Hscore).
  - apply schedule_reads; reflexivity.
  - vm_compute. discriminate.
  - vm_compute. discriminate.
  - vm_compute. reflexivity.
  - eexists. vm_compute. reflexivity.
  - reflexivity.
  - intros q [<-|[<-|[]]]; vm_compute; reflexivity.
  - assert (E : Some (PyFloat 37.5%float) = Some final)
      by (rewrite <- Hfinal; vm_compute; reflexivity).
    injection E as <-. exists w'. split; [exact Hrun | exact Hscore].
Defined.


(** X10 on two schedules: a duration of ten thousand million minutes
    leaves the range of datetime, and a start_time saved without an offset
    cannot be compared with the clock. *)
Lemma unusable_schedule_raises_witness :
  let long := start (bank (<["duration" := "10000000000"]> schedule) [q1]) (student None) in
  let naive := start (bank (<["start_time" := "2024-01-15T10:00:00"]> schedule) [q1])
                     (student None) in
  run_exam (clock 10 15 0) idle long = Raised OverflowError long
  /\ run_exam (clock 10 15 0) idle naive = Raised TypeError naive.
Proof.
  intros long naive. split.
  - destruct (unusable_schedule_raises Sample.float_of_str Sample.int_of_str
                Sample.fromisoformat (clock 10 15 0) idle long "alice" SENTINEL
                "2024-01-15T10:00:00+05:30" "10000000000" (Aware (clock 10 0 0)) 10000000000
                eq_refl eq_refl eq_refl eq_refl eq_refl) as [Hover _].
    + vm_compute. reflexivity.
    + vm_compute. reflexivity.
    + apply Hover. vm_compute. reflexivity.
  - destruct (unusable_schedule_raises Sample.float_of_str Sample.int_of_str
                Sample.fromisoformat (clock 10 15 0) idle naive "alice" SENTINEL
                "2024-01-15T10:00:00" "30" (Naive (local_us (clock 10 0 0))) 30
                eq_refl eq_refl eq_refl eq_refl eq_refl) as [_ Hnaive].
    + vm_compute. reflexivity.
    + vm_compute. reflexivity.
    + apply (Hnaive (local_us (clock 10 0 0)) (Naive (local_us (clock 10 30 0))));
        vm_compute; reflexivity.
Defined.

(** X11 on the sample registry: bob signs up and then logs in. *)
Lemma created_account_logs_in_witness :
  let w := start (bank schedule [q1]) (Session None None None) in
  exists w1,
    run_login (create "bob" "password") w
    = Returned [st_success "Account created! Please Login."] w1
    /\ run_login (LoginUi "bob" "password" true "" "" false) w1
       = Returned [] (World (db w1)
                            (Session (Some "bob") (Some "student") (s_user_answers (ss w1)))
                            (commits w1)).
Proof.
  intros w.
  destruct (created_account_logs_in Sample.sha256_hexdigest (create "bob" "password") w
              eq_refl eq_refl eq_refl) as (w1 & Hrun & Hlogin).
  exists w1. split; [exact Hrun|].
  exact (Hlogin (LoginUi "bob" "password" true "" "" false) eq_refl eq_refl eq_refl).
Defined.

(** X12 on the sample registry: alice with her password, and alice with
    another text. *)
Lemma login_checks_name_and_digest_witness :
  let w := start (bank schedule [q1]) (Session None None None) in
  run_login (LoginUi "alice" "password" true "" "" false) w
  = Returned [] (World (db w) (Session (Some "alice") (Some "student") None) (commits w))
  /\ run_login (LoginUi "alice" "admin123" true "" "" false) w
     = Returned [st_error "Invalid credentials"] w.
Proof.
  intros w. split.
  - destruct (proj1 (login_checks_name_and_digest Sample.sha256_hexdigest
                       (LoginUi "alice" "password" true "" "" false) w eq_refl eq_refl))
      as (r & Hin & Hname & _ & Hrun).
    + exists alice. split; [right; left; reflexivity | split; reflexivity].
    + destruct Hin as [<-|[<-|[]]]; [discriminate Hname | exact Hrun].
  - apply (proj2 (login_checks_name_and_digest Sample.sha256_hexdigest
                    (LoginUi "alice" "admin123" true "" "" false) w eq_refl eq_refl)).
    intros r [<-|[<-|[]]] [Hname Hpwd]; [discriminate Hname | discriminate Hpwd].
Defined.

(** A visitor who signs up as bob, and the admin who saves the settings
    and uploads two questions. *)
Abbreviation visitor_run :=
  (Session None None None,
   RunInput (clock 9 0 0) false (create "bob" "password") (upload []) idle).
Abbreviation admin_run :=
  (Session (Some "admin") (Some "admin") None,
   RunInput (clock 9 0 0) false (create "" "")
     (AdminUi (local_us (clock 10 0 0)) 30 true 0.25%float true true
        (Some (Some [row "7 + 7 = ?" "A" "B" "C" "D" "C"; row "8 + 8 = ?" "A" "B" "C" "D" "D"]))
        true)
     idle).
(** Alice back after the end of the exam, pressing "Submit Final Answers". *)
Abbreviation late_run :=
  (student (Some (<[1 := Some "B"]> ∅)),
   RunInput (clock 11 0 0) false (create "" "") (upload []) (ExamUi radios_A_C true)).

(** X14 on the sample registry, over the three runs. *)
Lemma usernames_stay_unique_witness :
  unique_users (run_script (bank schedule [q1; q2]) [visitor_run; admin_run; late_run]).
Proof.
  apply usernames_stay_unique.
  repeat constructor; simpl; [intros [H|[]]; discriminate H | intros []].
Defined.

(** X15 on the sample registry: alice is still there after the three runs,
    with her password and as a student. *)
Lemma accounts_are_never_lost_or_altered_witness :
  exists r',
    find_user (run_script (bank schedule [q1; q2]) [visitor_run; admin_run; late_run]) "alice"
    = Some r'
    /\ password r' = password alice /\ role r' = "student".
Proof.
  exact (accounts_are_never_lost_or_altered Sample.float_of_str Sample.int_of_str
           Sample.fromisoformat Sample.sha256_hexdigest Sample.IST_localize Sample.isoformat
           Sample.str_of_int Sample.str_of_float [visitor_run; admin_run; late_run]
           (bank schedule [q1; q2]) "alice" alice eq_refl).
Defined.

(** X16 for an alice who has submitted 37.5: the three runs, the last with
    other answers and "Submit Final Answers" pressed, leave her 37.5. *)
Lemma submitted_score_survives_script_runs_witness :
  let d := Database [admin; User "alice" (password alice) "student" 37.5%float]
                    (with_penalty schedule) [q1; q2] 2 in
  select_score (run_script d [visitor_run; admin_run; late_run]) "alice" = Some 37.5%float.
Proof.
  intros d.
  exact (submitted_score_survives_script_runs Sample.float_of_str Sample.int_of_str
           Sample.fromisoformat Sample.sha256_hexdigest Sample.IST_localize Sample.isoformat
           Sample.str_of_int Sample.str_of_float [visitor_run; admin_run; late_run]
           d "alice" 37.5%float eq_refl eq_refl).
Defined.

(** X17 for a student's run that carries the admin's widgets, "Save
    Settings" and "Process CSV" pressed: config and questions stay. *)
Lemma only_admin_sessions_change_settings_witness :
  let w := start (bank schedule [q1; q2]) (student None) in
  let w' := world_of (run_main (RunInput (clock 10 15 0) false (create "" "")
                                  (on_admin (snd admin_run)) idle) w) in
  config (db w') = schedule /\ questions (db w') = [q1; q2] /\ q_seq (db w') = 2.
Proof.
  intros w w'.
  apply (only_admin_sessions_change_settings Sample.float_of_str Sample.int_of_str
           Sample.fromisoformat Sample.sha256_hexdigest Sample.IST_localize Sample.isoformat
           Sample.str_of_int Sample.str_of_float
           (RunInput (clock 10 15 0) false (create "" "") (on_admin (snd admin_run)) idle) w).
  discriminate.
Defined.

(** X18 on the sample registry: alice logs out holding an answer, and the
    admin who logs in next finds it in the session. *)
Lemma answers_survive_logout_and_login_witness :
  let held : option (gmap Z (option string)) := Some (<[1 := Some "A"]> ∅) in
  let w := start (bank schedule [q1]) (student held) in
  let out := World (db w) (Session None (Some "student") held) [] in
  run_main (RunInput (clock 10 15 0) true (create "" "") (upload []) idle) w
  = Returned LoggedOut out
  /\ run_main (RunInput (clock 10 16 0) false (LoginUi "admin" "admin123" true "" "" false)
                 (upload []) idle) out
     = Returned (LoginPage []) (World (db w) (Session (Some "admin") (Some "admin") held) []).
Proof.
  intros held w out.
  destruct (answers_survive_logout_and_login Sample.float_of_str Sample.int_of_str
              Sample.fromisoformat Sample.sha256_hexdigest Sample.IST_localize
              Sample.isoformat Sample.str_of_int Sample.str_of_float
              (RunInput (clock 10 15 0) true (create "" "") (upload []) idle) w "alice"
              eq_refl eq_refl eq_refl) as [Hout Hlogin].
  split; [exact Hout|].
  exact (Hlogin (RunInput (clock 10 16 0) false (LoginUi "admin" "admin123" true "" "" false)
                   (upload []) idle) admin eq_refl eq_refl).
Defined.

(** X19 on an empty config: the exam of 15 January 2024, 10:00 IST, for 30
    minutes, with negative marking and a penalty of 0.25, results shown. *)
Lemma saved_settings_govern_the_exam_witness :
  let w := start (bank ∅ [q1]) (Session (Some "admin") (Some "admin") None) in
  exists w1,
    run_save (on_admin (snd admin_run)) w = Returned [st_success "Settings Saved!"] w1
    /\ read_rules Sample.float_of_str w1 = Returned (true, 0.25%float) w1
    /\ scheduled Sample.int_of_str Sample.fromisoformat (db w1)
         (clock 10 0 0) 30 (clock 10 30 0)
    /\ config (db w1) !! "show_result" = Some "1".
Proof.
  intros w.
  destruct (saved_settings_govern_the_exam Sample.float_of_str Sample.int_of_str
              Sample.fromisoformat Sample.IST_localize Sample.isoformat Sample.str_of_int
              Sample.str_of_float (on_admin (snd admin_run)) w eq_refl)
    as (w1 & Hrun & _ & _ & _ & _ & Hrules & Hsched & Hshow).
  exists w1. split; [exact Hrun|]. split; [|split].
  - apply Hrules. vm_compute. reflexivity.
  - apply (Hsched (clock 10 30 0)); vm_compute; reflexivity.
  - apply Hshow. reflexivity.
Defined.

(** X20 on the sample bank, whose ids are 1 and 2: the two uploaded rows
    get 3 and 4, and the answers held for 1 and 2 score as none. *)
Lemma upload_numbers_rows_after_the_old_ids_witness :
  let w := start (bank schedule [q1; q2]) (Session (Some "admin") (Some "admin") None) in
  let d' := db (world_of (process_csv (on_admin (snd admin_run)) w)) in
  q_seq d' = 4
  /\ map q_id (questions d') = [3; 4]
  /\ final_percent (questions d') (<[1 := Some "A"]> (<[2 := Some "B"]> ∅)) true 0.25%float
     = final_percent (questions d') ∅ true 0.25%float.
Proof.
  intros w d'.
  destruct (upload_numbers_rows_after_the_old_ids (on_admin (snd admin_run)) w _
              eq_refl eq_refl) as (Hseq & Hids & _ & Hstale).
  split; [exact Hseq|]. split; [exact Hids|].
  apply Hstale. intros k [a Ha].
  apply lookup_insert_Some in Ha as [[<- _]|[_ Ha]]; [vm_compute; discriminate|].
  apply lookup_insert_Some in Ha as [[<- _]|[_ Ha]]; [vm_compute; discriminate|].
  rewrite lookup_empty in Ha. discriminate Ha.
Defined.

(** X21 on the sample bank, over the three runs, the admin's upload among
    them. *)
Lemma question_ids_stay_in_order_witness :
  let d := run_script (bank schedule [q1; q2]) [visitor_run; admin_run; late_run] in
  ids_in_order d /\ List.NoDup (map q_id (questions d)).
Proof.
  intros d. apply question_ids_stay_in_order. split.
  - repeat constructor.
  - repeat constructor; vm_compute; discriminate.
Defined.
